(** * Syncopy: conda2pip, the input parsers and the test helpers

    A shallow embedding of three modules of the repository,

    - [conda2pip.py]                 (module [Conda2pip]),
    - [syncopy/utils/parsers.py]     (module [Parsers]),
    - [syncopy/tests/misc.py]        (module [TestMisc]),

    together with the properties of them that the specification states
    and further properties of the same functions and of their neighbours.
    Python exceptions are results of type [result]; mutable Python objects
    live in an explicit store; library calls whose code is not part of the
    repository (ruamel.yaml, os.path, matplotlib, h5py, the random number
    generator) are parameters of the sections that use them. *)

From Stdlib Require Import ZArith QArith Qround List String Ascii Bool Lia.
From Stdlib Require Import DecimalString.
From stdpp Require Import base option list gmap strings.
Import ListNotations.

Local Open Scope Z_scope.

(* ===================================================================== *)
(** * Python values, exceptions and strings *)
(* ===================================================================== *)

Module Py.

(** A real scalar as comparisons see it: a finite value, an infinity or
    NaN.  Every IEEE double is one of these (both zeros are [Fin 0]);
    Python integers are finite values. *)
Inductive xreal : Type :=
| Fin (q : Q)
| PInf
| NInf
| NaN.

(** Locations of mutable objects (lists, arrays) in the store. *)
Definition loc : Type := positive.

(** Immutable values. *)
Inductive scalar : Type :=
| SNone
| SBool (b : bool)
| SInt (z : Z)
| SFloat (x : xreal)
| SComplex (re im : xreal)
| SStr (s : string).

(** What a variable holds: an immutable value or a reference to a mutable
    object. *)
Inductive pyval : Type :=
| Val (s : scalar)
| Ref (l : loc).
Arguments Ref l%_positive.

Inductive builtin_exn : Type :=
| AttributeError
| IndexError
| KeyError
| TypeError
| ValueError
| OSError.

(** The three error classes of [syncopy.utils], each with the arguments
    its constructor is called with, and the builtin exceptions.
    [Unmodelled] is no exception: it marks a call that leaves the part of
    Python and NumPy that is described here (a bound that is complex or
    itself an array); nothing is said about how such a call ends. *)
Inductive exn : Type :=
| SPYTypeError (var : pyval) (varname : string) (expected : string)
| SPYValueError (legal : string) (varname : string) (actual : option string)
| SPYIOError (fs_loc : string) (exists_ : bool)
| Builtin (e : builtin_exn)
| Unmodelled.

Inductive result (A : Type) : Type :=
| Ok (a : A)
| Raise (e : exn).
Arguments Ok {A} a.
Arguments Raise {A} e.

#[export] Instance result_ret : MRet result := fun A a => Ok a.

#[export] Instance result_bind : MBind result := fun A B k r =>
  match r with
  | Ok a => k a
  | Raise e => Raise e
  end.

(** A list comprehension whose element expression may raise. *)
Fixpoint mapM {A B} (f : A -> result B) (l : list A) : result (list B) :=
  match l with
  | [] => Ok []
  | x :: l' => y ← f x; ys ← mapM f l'; Ok (y :: ys)
  end.

(** [any(l)] on a list of truth values. *)
Definition any (l : list bool) : bool := existsb id l.



(** ** Strings *)

(** [s.startswith(p)] *)
Definition startswith (s p : string) : bool := String.prefix p s.

Definition lower_ascii (c : ascii) : ascii :=
  let n := nat_of_ascii c in
  if ((65 <=? n)%nat && (n <=? 90)%nat)%bool then ascii_of_nat (n + 32) else c.

(** [s.lower()], on ASCII letters. *)
Fixpoint lower (s : string) : string :=
  match s with
  | EmptyString => EmptyString
  | String c s' => String (lower_ascii c) (lower s')
  end.

(** [sub in s] *)
Fixpoint contains (s sub : string) : bool :=
  (String.prefix sub s
   || match s with
      | EmptyString => false
      | String _ s' => contains s' sub
      end)%bool.

Fixpoint interleave (new s : string) : string :=
  match s with
  | EmptyString => new
  | String c s' => new +:+ String c (interleave new s')
  end.

(** Left-to-right replacement of the non-overlapping occurrences of a
    non-empty [old]; [skip] counts the characters of a match still to be
    dropped. *)
Fixpoint replace_go (skip : nat) (old new s : string) : string :=
  match s with
  | EmptyString => EmptyString
  | String c s' =>
      match skip with
      | S k => replace_go k old new s'
      | O =>
          if String.prefix old s
          then new +:+ replace_go (String.length old - 1) old new s'
          else String c (replace_go O old new s')
      end
  end.

(** [s.replace(old, new)] *)
Definition replace (s old new : string) : string :=
  match old with
  | EmptyString => interleave new s
  | _ => replace_go O old new s
  end.

(** [sep.join(l)] *)
Definition join (sep : string) (l : list string) : string :=
  String.concat sep l.

Definition nl : string := String (ascii_of_nat 10) EmptyString.

(** [s.split("\n")] *)
Fixpoint split_nl (s : string) : list string :=
  match s with
  | EmptyString => [EmptyString]
  | String c s' =>
      if Ascii.eqb c (ascii_of_nat 10)
      then EmptyString :: split_nl s'
      else match split_nl s' with
           | h :: t => String c h :: t
           | [] => [String c EmptyString]
           end
  end.


End Py.

Import Py.

(* ===================================================================== *)
(** * conda2pip.py *)
(* ===================================================================== *)

Module Conda2pip.

(** ** The YAML object that ruamel.yaml hands over *)

(** A comment token: its text and the line on which it ends. *)
Record token : Type := { value : string; end_mark_line : Z }.

(** One entry of a comment list [ca.items[k]]: [None], a token, or a list
    of tokens. *)
Inductive slot : Type :=
| SlotNone
| SlotTok (t : token)
| SlotList (ts : list token).

(** An item of the dependencies of an environment file is a string or a
    mapping (the "pip" section); a [CommentedSeq] carries its items, the
    comment dictionary [ca.items] (in iteration order) and the line/column
    dictionary [lc.data]. *)
Inductive node : Type :=
| NStr (s : string)
| NMap (m : list (string * cseq))
with cseq : Type :=
| CSeq (items : list node) (ca_items : list (nat * list slot))
       (lc_data : list (nat * (Z * Z))).

Definition items (y : cseq) : list node := let 'CSeq i _ _ := y in i.
Definition ca_items (y : cseq) : list (nat * list slot) := let 'CSeq _ c _ := y in c.
Definition lc_data (y : cseq) : list (nat * (Z * Z)) := let 'CSeq _ _ l := y in l.

Definition isinstance_str (n : node) : bool :=
  match n with
  | NStr _ => true
  | NMap _ => false
  end.

(** Dictionary lookup in an association list; a missing key is a
    [KeyError]. *)
Fixpoint getitem {K V} `{EqDecision K} (d : list (K * V)) (k : K) : result V :=
  match d with
  | [] => Raise (Builtin KeyError)
  | (k', v) :: d' => if decide (k' = k) then Ok v else getitem d' k
  end.

(** ** Module constants *)

Definition commentKeys : list string := ["test"; "optional"; "development"].

Definition pkgConvert : list (string * string) := [("python-graphviz", "graphviz")].

(** ** [_process_comments] *)

(** [pkg.startswith(p)]: only strings have the method. *)
Definition node_startswith (p : string) (pkg : node) : result bool :=
  match pkg with
  | NStr s => Ok (startswith s p)
  | NMap _ => Raise (Builtin AttributeError)
  end.

(** [pkg.replace(old, new)] *)
Definition node_replace (old new : string) (pkg : node) : result node :=
  match pkg with
  | NStr s => Ok (NStr (replace s old new))
  | NMap _ => Raise (Builtin AttributeError)
  end.

(** [l.index(True)] on a list that contains [True]. *)
Fixpoint index_true (l : list bool) : nat :=
  match l with
  | [] => O
  | true :: _ => O
  | false :: l' => S (index_true l')
  end.

(** The loop over [pkgConvert.items()]. *)
Fixpoint convert_pkgs (conv : list (string * string)) (ymlSeq : list node)
  : result (list node) :=
  match conv with
  | [] => Ok ymlSeq
  | (condaPkg, pipPkg) :: conv' =>
      pkgFound ← mapM (node_startswith condaPkg) ymlSeq;
      if any pkgFound then
        let pkgIdx := index_true pkgFound in
        match ymlSeq !! pkgIdx with
        | Some pkg =>
            pkgEntry ← node_replace condaPkg pipPkg pkg;
            convert_pkgs conv' (<[pkgIdx := pkgEntry]> ymlSeq)
        | None => Raise (Builtin IndexError)
        end
      else convert_pkgs conv' ymlSeq
  end.

(** [t[0] if isinstance(t, list) else t] *)
Definition slot_head (t : slot) : result (option token) :=
  match t with
  | SlotNone => Ok None
  | SlotTok tok => Ok (Some tok)
  | SlotList [] => Raise (Builtin IndexError)
  | SlotList (tok :: _) => Ok (Some tok)
  end.

(** The [any([...])] test on one token. *)
Definition has_keyword (tok : option token) : bool :=
  any (map (fun keyword =>
              match tok with
              | Some t => contains (lower (value t)) keyword
              | None => false
              end) commentKeys).

(** The inner [for token in ...] loop: the first token that carries a
    keyword sets [cutoff] and ends the loop. *)
Fixpoint scan_tokens (y : cseq) (lineno : nat) (toks : list (option token))
    (cutoff : option nat) : result (option nat) :=
  match toks with
  | [] => Ok cutoff
  | tok :: toks' =>
      if has_keyword tok then
        match tok, lineno with
        | Some t, O =>
            first ← getitem (lc_data y) O;
            Ok (Some (Z.to_nat (Z.max 0 (end_mark_line t - fst first - 1))))
        | _, _ => Ok (Some (lineno + 1)%nat)
        end
      else scan_tokens y lineno toks' cutoff
  end.

(** The outer loop over [ymlSeq.ca.items.items()]. *)
Fixpoint find_cutoff (y : cseq) (ca : list (nat * list slot))
    (cutoff : option nat) : result (option nat) :=
  match ca with
  | [] => Ok cutoff
  | (lineno, tokens) :: ca' =>
      toks ← mapM slot_head tokens;
      cutoff' ← scan_tokens y lineno toks cutoff;
      find_cutoff y ca' cutoff'
  end.

Definition _process_comments (ymlSeq : cseq) : result (list node * list node) :=
  seq ← convert_pkgs pkgConvert (items ymlSeq);
  cutoff ← find_cutoff ymlSeq (ca_items ymlSeq) None;
  match cutoff with
  | None => Ok (seq, [])
  | Some c => Ok (take c seq, drop c seq)
  end.

(** ** [conda2pip] *)

(** The loop that looks for the "pip" section: the index of the last item
    that is not a string. *)
Fixpoint find_pipIndex (index : nat) (deps : list node) (pipIndex : option nat)
  : option nat :=
  match deps with
  | [] => pipIndex
  | key :: deps' =>
      find_pipIndex (S index) deps'
        (if isinstance_str key then pipIndex else Some index)
  end.

(** [pipDeps["pip"]] *)
Definition node_getitem (n : node) (k : string) : result cseq :=
  match n with
  | NMap m => getitem m k
  | NStr _ => Raise (Builtin TypeError)
  end.

(** An item of the list given to [str.join] has to be a string. *)
Definition node_str (n : node) : result string :=
  match n with
  | NStr s => Ok s
  | NMap _ => Raise (Builtin TypeError)
  end.

(** The info string written on top of both files; [script] is
    [os.path.basename(__file__)] and [stamp] the formatted current time. *)
Definition header_line1 (script stamp : string) : string :=
  "# This file was auto-generated by " +:+ script +:+ " on " +:+ stamp +:+ ". ".

Definition header_line2 : string :=
  "# Do not edit, all of your changes will be overwritten. ".

Definition msg (script stamp : string) : string :=
  header_line1 script stamp +:+ nl +:+ header_line2 +:+ nl.

(** [with open(name, "w") as f: f.write(msg); f.write("\n".join(pkgs))]
    on the files of the working directory.  Opening truncates; what has
    been written stays when the block is left by an exception. *)
Definition write_file (name text : string) (pkgs : list node)
    (fs : gmap string string) : result unit * gmap string string :=
  let fs := <[name := EmptyString]> fs in
  let fs := alter (fun c => c +:+ text) name fs in
  match mapM node_str pkgs with
  | Ok strs => (Ok tt, alter (fun c => c +:+ join nl strs) name fs)
  | Raise e => (Raise e, fs)
  end.

Section WithRuamel.

(** What deleting item [idx] of a [CommentedSeq] does to its comment
    dictionary is decided by ruamel.yaml. *)
Variable pop_ca : nat -> list (nat * list slot) -> list (nat * list slot).

(** [deps.pop(i)] *)
Definition seq_pop (deps : cseq) (i : nat) : result (node * cseq) :=
  match items deps !! i with
  | Some n =>
      Ok (n, CSeq (delete i (items deps)) (pop_ca i (ca_items deps)) (lc_data deps))
  | None => Raise (Builtin IndexError)
  end.

(** Lines 87-113: the lists [required] and [testing]. *)
Definition collect (deps : cseq) : result (list node * list node) :=
  let pipIndex := find_pipIndex O (items deps) None in
  '(required, testing, deps) ←
    match pipIndex with
    | Some (S _ as i) =>
        '(pipDeps, deps) ← seq_pop deps i;
        pip ← node_getitem pipDeps "pip";
        '(pipReq, pipTest) ← _process_comments pip;
        Ok (pipReq, pipTest, deps)
    | _ => Ok ([], [], deps)
    end;
  '(condaReq, condaTest) ← _process_comments deps;
  let required := (required ++ condaReq)%list in
  let testing := (testing ++ condaTest)%list in
  pyReq ← mapM (node_startswith "python") required;
  let required :=
    if any pyReq then delete (index_true pyReq) required else required in
  Ok (required, testing).

(** [deps] is [ymlObj["dependencies"]] of the file read; the result is the
    returned value and the files of the working directory afterwards. *)
Definition conda2pip (deps : cseq) (return_lists : bool) (script stamp : string)
    (fs : gmap string string)
  : result (option (list node * list node)) * gmap string string :=
  match collect deps with
  | Raise e => (Raise e, fs)
  | Ok (required, testing) =>
      match write_file "requirements.txt" (msg script stamp) required fs with
      | (Raise e, fs) => (Raise e, fs)
      | (Ok _, fs) =>
          let '(r, fs) :=
            if (0 <? length testing)%nat
            then write_file "requirements-test.txt" (msg script stamp) testing fs
            else (Ok tt, fs) in
          match r with
          | Raise e => (Raise e, fs)
          | Ok _ =>
              (Ok (if return_lists then Some (required, testing) else None), fs)
          end
      end
  end.

End WithRuamel.

(** Deletion as ruamel.yaml's [CommentedSeq] does it: the comments of the
    deleted item go, those of later items are re-keyed one down and end
    up behind the untouched ones. *)
Definition ruamel_pop_ca (idx : nat) (ca : list (nat * list slot))
  : list (nat * list slot) :=
  filter (fun e => (e.1 < idx)%nat) ca
  ++ map (fun e => (Nat.pred e.1, e.2)) (filter (fun e => (idx < e.1)%nat) ca).

(** The text of a requirements file that lists [pkgs]: the two header
    lines, then the packages. *)
Definition requirements_text (script stamp : string) (pkgs : list string) : string :=
  header_line1 script stamp +:+ nl +:+ header_line2 +:+ nl +:+ join nl pkgs.

(** ** Inputs on which no library call fails *)

(** All items are strings. *)
Definition all_str (l : list node) : Prop :=
  Forall (fun n => isinstance_str n = true) l.

(** A comment entry whose first token can be taken. *)
Definition slot_ok (t : slot) : bool :=
  match t with
  | SlotList [] => false
  | _ => true
  end.

(** A sequence of strings whose comment lists are not empty and whose
    first item has its line recorded. *)
Definition plain_seq (y : cseq) : bool :=
  forallb isinstance_str (items y)
  && forallb (fun e => forallb slot_ok e.2) (ca_items y)
  && match getitem (lc_data y) O with
     | Ok _ => true
     | Raise _ => false
     end.

(** ** Sample environment files *)

Definition comment (text : string) (line : Z) : token :=
  {| value := text; end_mark_line := line |}.

(** Three conda packages, no comment. *)
Definition sample_plain : cseq :=
  CSeq [NStr "numpy >= 1.15"; NStr "scipy >= 1.5, < 1.6"; NStr "python >= 3.8"]
       [] [(0%nat, (1, 4)); (1%nat, (2, 4)); (2%nat, (3, 4))].

(** The environment file of the docstring of [conda2pip]. *)
Definition sample_pip_section : cseq :=
  CSeq [NStr "sphinx_automodapi"]
       [(0%nat, [SlotNone; SlotList [comment "# optional" 8]])]
       [(0%nat, (8, 6))].

Definition sample_docstring : cseq :=
  CSeq [NStr "numpy >= 1.15"; NStr "scipy >= 1.5, < 1.6";
        NStr "matplotlib >= 3.3, < 3.5"; NMap [("pip", sample_pip_section)]]
       [(1%nat, [SlotTok (comment "# testing" 5); SlotNone])]
       [(0%nat, (2, 4)); (1%nat, (3, 4)); (2%nat, (5, 4)); (3%nat, (6, 4))].

(** The same packages with the "pip" section listed first. *)
Definition sample_pip_first : cseq :=
  CSeq [NMap [("pip", sample_pip_section)]; NStr "numpy >= 1.15";
        NStr "matplotlib >= 3.3, < 3.5"]
       [(1%nat, [SlotTok (comment "# testing" 5); SlotNone])]
       [(0%nat, (1, 4)); (1%nat, (4, 4)); (2%nat, (6, 4))].

(** A package of graphviz with a version, and one without. *)
Definition sample_graphviz : cseq :=
  CSeq [NStr "numpy >= 1.15"; NStr "python-graphviz >= 0.8"; NStr "python-graphviz"]
       [] [(0%nat, (1, 4)); (1%nat, (2, 4)); (2%nat, (3, 4))].

(** Four packages, a comment "# optional" behind the second and a comment
    "# testing" behind the third. *)
Definition sample_two_comments : cseq :=
  CSeq [NStr "numpy >= 1.15"; NStr "scipy >= 1.5, < 1.6"; NStr "ruamel.yaml";
        NStr "pytest"]
       [(1%nat, [SlotTok (comment "# optional" 3); SlotNone]);
        (2%nat, [SlotList [comment "# testing" 5]; SlotNone])]
       [(0%nat, (1, 4)); (1%nat, (2, 4)); (2%nat, (4, 4)); (3%nat, (6, 4))].

Definition sample_script : string := "conda2pip.py".
Definition sample_stamp : string := "05/10/2020 at 11:11:21".

End Conda2pip.

(* ===================================================================== *)
(** * syncopy/utils/parsers.py *)
(* ===================================================================== *)

Module Parsers.

(** ** Real numbers with infinities and NaN *)

Definition isfinite (x : xreal) : bool :=
  match x with
  | Fin _ => true
  | _ => false
  end.

Definition isinf (x : xreal) : bool :=
  match x with
  | PInf | NInf => true
  | _ => false
  end.

Definition isnan (x : xreal) : bool :=
  match x with
  | NaN => true
  | _ => false
  end.

Definition Qltb (p q : Q) : bool := negb (Qle_bool q p).

(** [a < b]: false as soon as one side is NaN. *)
Definition xlt (a b : xreal) : bool :=
  match a, b with
  | NaN, _ | _, NaN => false
  | PInf, _ => false
  | _, NInf => false
  | NInf, _ => true
  | _, PInf => true
  | Fin p, Fin q => Qltb p q
  end.

(** [a > b] *)
Definition xgt (a b : xreal) : bool := xlt b a.

(** [a == b]: NaN equals nothing. *)
Definition xeq (a b : xreal) : bool :=
  match a, b with
  | Fin p, Fin q => Qeq_bool p q
  | PInf, PInf | NInf, NInf => true
  | _, _ => false
  end.

(** Rounding to the nearest integer, halves to the even one. *)
Definition Qround (q : Q) : Q :=
  let f := Qfloor q in
  let r := (q - inject_Z f)%Q in
  if Qltb r (1 # 2) then inject_Z f
  else if Qltb (1 # 2) r then inject_Z (f + 1)
  else if Z.even f then inject_Z f else inject_Z (f + 1).

(** [np.round(x)] *)
Definition xround (x : xreal) : xreal :=
  match x with
  | Fin q => Fin (Qround q)
  | _ => x
  end.

(** ** Scalars *)


(** The real number that a comparison sees in a real scalar. *)
Definition to_real (s : scalar) : option xreal :=
  match s with
  | SBool b => Some (Fin (if b then 1 else 0))
  | SInt z => Some (Fin (inject_Z z))
  | SFloat x => Some x
  | _ => None
  end.

(** [var.real] and [var.imag] of a number. *)
Definition real_part (s : scalar) : xreal :=
  match s with
  | SComplex re _ => re
  | _ => default (Fin 0) (to_real s)
  end.

Definition imag_part (s : scalar) : xreal :=
  match s with
  | SComplex _ im => im
  | _ => Fin 0
  end.

(** [np.isfinite(var)] of a number. *)
Definition scalar_isfinite (s : scalar) : bool :=
  isfinite (real_part s) && isfinite (imag_part s).

(** [np.round(var) != var] of a number. *)
Definition round_differs (s : scalar) : bool :=
  negb (xeq (xround (real_part s)) (real_part s)
        && xeq (xround (imag_part s)) (imag_part s)).

(** The builtin classes of the scalars, and any other object that
    [__builtins__] has as an attribute. *)
Inductive pytype : Type :=
| TNoneType | TBool | TInt | TFloat | TComplex | TStr | TOther (name : string).

Definition type_of (s : scalar) : pytype :=
  match s with
  | SNone => TNoneType
  | SBool _ => TBool
  | SInt _ => TInt
  | SFloat _ => TFloat
  | SComplex _ _ => TComplex
  | SStr _ => TStr
  end.

#[export] Instance pytype_eq_dec : EqDecision pytype.
Proof. solve_decision. Defined.

(** ** Arrays and the store *)

(** The kinds of dtype that NumPy gives to arrays built from Python
    scalars. *)
Inductive dtype : Type :=
| DBool | DInt | DFloat | DComplex | DStr | DObject.

#[export] Instance dtype_eq_dec : EqDecision dtype.
Proof. solve_decision. Defined.

(** An array element: a number (with imaginary part 0 in a real array), a
    string, or an object. *)
Inductive elem : Type :=
| ENum (re im : xreal)
| EStr (s : string)
| EObj.

Record ndarray : Type := {
  arr_dtype : dtype;
  arr_shape : list nat;
  arr_elems : list elem
}.

(** Mutable objects: Python lists of scalars and NumPy arrays. *)
Inductive obj : Type :=
| OList (items : list scalar)
| ONdarray (a : ndarray).

Abbreviation heap := (gmap loc obj).

(** [np.issubdtype(dt, np.number)] *)
Definition is_numeric (dt : dtype) : bool :=
  match dt with
  | DInt | DFloat | DComplex => true
  | _ => false
  end.

(** The dtype of [np.array(items)]. *)
Definition infer_dtype (items : list scalar) : dtype :=
  if existsb (fun s => match s with SNone => true | _ => false end) items then DObject
  else if existsb (fun s => match s with SStr _ => true | _ => false end) items then DStr
  else if existsb (fun s => match s with SComplex _ _ => true | _ => false end) items
  then DComplex
  else if existsb (fun s => match s with SFloat _ => true | _ => false end) items
  then DFloat
  else if existsb (fun s => match s with SInt _ => true | _ => false end) items then DInt
  else match items with [] => DFloat | _ => DBool end.

(** ** Computations on the store *)

(** A computation reads and extends the store and ends with a value or an
    exception. *)
Definition M (A : Type) : Type := heap -> result A * heap.

#[export] Instance M_ret : MRet M := fun A a h => (Ok a, h).

#[export] Instance M_bind : MBind M := fun A B k m h =>
  match m h with
  | (Ok a, h') => k a h'
  | (Raise e, h') => (Raise e, h')
  end.

Definition raise {A} (e : exn) : M A := fun h => (Raise e, h).

(** A computation that does not look at the store. *)
Definition lift {A} (r : result A) : M A := fun h => (r, h).

(** A new object. *)
Definition alloc (o : obj) : M loc :=
  fun h => let l := fresh (dom h) in (Ok l, <[l := o]> h).

(** The object behind a value, if the value is a reference. *)
Definition deref (v : pyval) : M (option obj) :=
  fun h => (Ok match v with Ref l => h !! l | Val _ => None end, h).

(** [m] leaves every object of the store as it is. *)
Definition extends {A} (m : M A) : Prop := forall h : heap, h ⊆ (m h).2.

(** [m] returns [v] whenever it returns. *)
Definition returns {A} (v : A) (m : M A) : Prop :=
  forall (h : heap) a, (m h).1 = Ok a -> a = v.

(** ** What is taken from Python and NumPy *)

Section WithLibraries.

(** [str(x)] of a scalar, of a dtype, of a shape and of a tuple with
    [None] entries. *)
Variable py_str : scalar -> string.
Variable str_dtype : dtype -> string.
Variable str_shape : list nat -> string.
Variable str_dims : list (option Z) -> string.

(** [getattr(__builtins__, name)]: a class of the scalars, another
    attribute, or an [AttributeError]; what [__builtins__] is (the module
    or its dictionary) is up to the interpreter. *)
Variable builtins_getattr : string -> result pytype.

(** [np.issubdtype(dt, np.dtype(name).type)]; [np.dtype] raises a
    [TypeError] on a name that it does not understand. *)
Variable issubdtype_name : dtype -> string -> result bool.

(** *** Arrays *)

Definition elem_of_scalar (dt : dtype) (s : scalar) : elem :=
  match dt, s with
  | DObject, _ => EObj
  | DStr, SStr t => EStr t
  | DStr, _ => EStr (py_str s)
  | _, _ => ENum (real_part s) (imag_part s)
  end.

(** [np.array(items)] of a list of scalars. *)
Definition array_of_list (items : list scalar) : ndarray :=
  {| arr_dtype := infer_dtype items;
     arr_shape := [length items];
     arr_elems := elem_of_scalar (infer_dtype items) <$> items |}.

(** [np.array(var)]: a new array in both cases. *)
Definition np_array (o : obj) : ndarray :=
  match o with
  | OList items => array_of_list items
  | ONdarray a => a
  end.

(** An element of a one-dimensional array as a scalar. *)
Definition scalar_of_elem (dt : dtype) (e : elem) : scalar :=
  match e with
  | ENum re im =>
      match dt, re with
      | DComplex, _ => SComplex re im
      | (DInt | DBool), Fin q => SInt (Qfloor q)
      | _, _ => SFloat re
      end
  | EStr s => SStr s
  | EObj => SNone
  end.

(** [x[i]]: on a list, on a one-dimensional array, on a string; numbers
    and [None] cannot be indexed.  An array of more dimensions would give
    a sub-array. *)
Definition getitem (x : pyval) (i : nat) : M scalar :=
  match x with
  | Ref _ =>
      o ← deref x;
      match o with
      | Some (OList items) =>
          match items !! i with
          | Some s => mret s
          | None => raise (Builtin IndexError)
          end
      | Some (ONdarray a) =>
          match arr_shape a with
          | [] => raise (Builtin IndexError)
          | [_] =>
              match arr_elems a !! i with
              | Some e => mret (scalar_of_elem (arr_dtype a) e)
              | None => raise (Builtin IndexError)
              end
          | _ => raise Unmodelled
          end
      | None => raise Unmodelled
      end
  | Val (SStr s) =>
      match String.get i s with
      | Some c => mret (SStr (String c EmptyString))
      | None => raise (Builtin IndexError)
      end
  | Val _ => raise (Builtin TypeError)
  end.

(** Comparing numbers with a bound: with a real bound as [xlt] and [xgt]
    say, with a string or [None] a [TypeError]. *)
Definition compare_with (cmp : xreal -> xreal -> bool) (val : list xreal)
    (bound : scalar) : result bool :=
  match bound with
  | SComplex _ _ => Raise Unmodelled
  | _ =>
      match to_real bound with
      | Some b => Ok (existsb (fun v => cmp v b) val)
      | None => Raise (Builtin TypeError)
      end
  end.

(** [np.any(val < bound)] and [np.any(val > bound)] *)
Definition any_lt : list xreal -> scalar -> result bool := compare_with xlt.
Definition any_gt : list xreal -> scalar -> result bool := compare_with xgt.

(** ** [scalar_parser] *)

(** The block under [if ntype is not None]. *)
Definition scalar_check_ntype (var : scalar) (varname : string) (ntype : option string)
  : result unit :=
  match ntype with
  | None => Ok tt
  | Some ntype =>
      if decide (ntype = "int_like") then
        if round_differs var
        then Raise (SPYValueError ntype varname (Some (py_str var)))
        else Ok tt
      else
        ty ← builtins_getattr ntype;
        if decide (type_of var = ty) then Ok tt
        else Raise (SPYTypeError (Val var) varname ntype)
  end.

(** The block under [if lims is not None]. *)
Definition scalar_check_lims (var : scalar) (varname : string) (lims : option pyval)
  : M unit :=
  match lims with
  | None => mret tt
  | Some lims =>
      let '(items, legal) :=
        match var with
        | SComplex re im =>
            ([SFloat re; SFloat im], "both real and imaginary part to be ")
        | _ => ([var], "value to be ")
        end in
      (* val = np.array([...]) *)
      alloc (ONdarray (array_of_list items));;
      let val := real_part <$> items in
      below ← (lb ← getitem lims 0; lift (any_lt val lb));
      outside ←
        (if below : bool then mret true
         else
           above ← (ub ← getitem lims 1; lift (any_gt val ub));
           if above : bool then mret true
           else mret (negb (scalar_isfinite var)));
      if outside : bool then
        lb ← getitem lims 0;
        ub ← getitem lims 1;
        raise (SPYValueError
                 (legal +:+ "greater or equals " +:+ py_str lb
                  +:+ " and less or equals " +:+ py_str ub)
                 varname (Some (py_str var)))
      else mret tt
  end.

Definition scalar_parser (var : pyval) (varname : string) (ntype : option string)
    (lims : option pyval) : M pyval :=
  match var with
  | Val (SBool _ as s) | Val (SInt _ as s) | Val (SFloat _ as s)
  | Val (SComplex _ _ as s) =>
      lift (scalar_check_ntype s varname ntype);;
      scalar_check_lims s varname lims;;
      mret (Val SNone)
  | _ => raise (SPYTypeError var varname "scalar")
  end.

(** ** [array_parser] *)

(** [np.isinf(arr)], [np.isnan(arr)] and [np.isfinite(arr)], element by
    element; arrays of strings and objects are not supported. *)
Definition elementwise (f : xreal -> xreal -> bool) (a : ndarray) : result (list bool) :=
  match arr_dtype a with
  | DStr | DObject => Raise (Builtin TypeError)
  | _ =>
      Ok ((fun e => match e with ENum re im => f re im | _ => false end)
            <$> arr_elems a)
  end.

Definition np_isinf : ndarray -> result (list bool) :=
  elementwise (fun re im => isinf re || isinf im).

Definition np_isnan : ndarray -> result (list bool) :=
  elementwise (fun re im => isnan re || isnan im).

Definition np_isfinite : ndarray -> result (list bool) :=
  elementwise (fun re im => isfinite re && isfinite im).

(** [mask.sum()] *)
Definition count_true (mask : list bool) : Z := Z.of_nat (length (List.filter id mask)).

(** [arr[mask]] *)
Fixpoint select {A} (l : list A) (mask : list bool) : list A :=
  match l, mask with
  | x :: l', true :: mask' => x :: select l' mask'
  | _ :: l', false :: mask' => select l' mask'
  | _, _ => []
  end.

(** [np.round(a) == a] for an element of a numeric array. *)
Definition elem_is_round (e : elem) : bool :=
  match e with
  | ENum re im => xeq (xround re) re && xeq (xround im) im
  | _ => false
  end.

(** The block under [if ntype is not None]; [ntype] is "numeric" already
    where bounds are given without a type. *)
Definition check_ntype (arr : ndarray) (varname : string) (ntype : option string)
  : result unit :=
  match ntype with
  | None => Ok tt
  | Some ntype =>
      if decide (ntype = "numeric" \/ ntype = "int_like") then
        if negb (is_numeric (arr_dtype arr)) then
          Raise (SPYValueError "dtype = numeric" varname
                   (Some ("dtype = " +:+ str_dtype (arr_dtype arr))))
        else if decide (ntype = "int_like") then
          match arr_shape arr with
          | [] => Raise (Builtin TypeError)   (* a 0-d array is not iterable *)
          | _ =>
              if forallb elem_is_round (arr_elems arr) then Ok tt
              else Raise (SPYValueError ("dtype = " +:+ ntype) varname None)
          end
        else Ok tt
      else
        sub ← issubdtype_name (arr_dtype arr) ntype;
        if sub : bool then Ok tt
        else Raise (SPYValueError ("dtype = " +:+ ntype) varname
                      (Some ("dtype = " +:+ str_dtype (arr_dtype arr))))
  end.

(** The block under [if hasinf is not None]. *)
Definition check_hasinf (arr : ndarray) (varname : string) (hasinf : option bool)
  : result unit :=
  match hasinf with
  | None => Ok tt
  | Some false =>
      mask ← np_isinf arr;
      if any mask then
        Raise (SPYValueError "finite numerical array" varname
                 (Some ("array with " +:+ py_str (SInt (count_true mask))
                        +:+ " `inf` entries")))
      else Ok tt
  | Some true =>
      mask ← np_isinf arr;
      if any mask then Ok tt
      else Raise (SPYValueError "numerical array with infinite (`np.inf`) entries"
                    varname (Some "finite numerical array"))
  end.

(** The block under [if hasnan is not None]. *)
Definition check_hasnan (arr : ndarray) (varname : string) (hasnan : option bool)
  : result unit :=
  match hasnan with
  | None => Ok tt
  | Some false =>
      mask ← np_isnan arr;
      if any mask then
        Raise (SPYValueError "well-defined numerical array" varname
                 (Some ("array with " +:+ py_str (SInt (count_true mask))
                        +:+ " `NaN` entries")))
      else Ok tt
  | Some true =>
      mask ← np_isnan arr;
      if any mask then Ok tt
      else Raise (SPYValueError "numerical array with undefined (`np.nan`) entries"
                    varname (Some "well-defined numerical array"))
  end.

(** [min(a, b)] and [max(a, b)] of Python, on reals. *)
Definition xmin (a b : xreal) : xreal := if xlt b a then b else a.
Definition xmax (a b : xreal) : xreal := if xgt b a then b else a.

(** [a.min()] and [a.max()]: a reduction over no element is a
    [ValueError]. *)
Definition arr_min (l : list xreal) : result xreal :=
  match l with
  | [] => Raise (Builtin ValueError)
  | x :: l' => Ok (foldl xmin x l')
  end.

Definition arr_max (l : list xreal) : result xreal :=
  match l with
  | [] => Raise (Builtin ValueError)
  | x :: l' => Ok (foldl xmax x l')
  end.

Definition elem_real (e : elem) : xreal :=
  match e with ENum re _ => re | _ => Fin 0 end.

Definition elem_imag (e : elem) : xreal :=
  match e with ENum _ im => im | _ => Fin 0 end.

(** [amin] and [amax] of the finite elements. *)
Definition min_max (dt : dtype) (fi_arr : list elem) : result (xreal * xreal) :=
  if decide (dt = DComplex) then
    rmin ← arr_min (elem_real <$> fi_arr);
    imin ← arr_min (elem_imag <$> fi_arr);
    rmax ← arr_max (elem_real <$> fi_arr);
    imax ← arr_max (elem_imag <$> fi_arr);
    Ok (xmin rmin imin, xmax rmax imax)
  else
    amin ← arr_min (elem_real <$> fi_arr);
    amax ← arr_max (elem_real <$> fi_arr);
    Ok (amin, amax).

(** The block under [if lims is not None]. *)
Definition check_lims (arr : ndarray) (varname : string) (lims : option pyval)
  : M unit :=
  match lims with
  | None => mret tt
  | Some lims =>
      mask ← lift (np_isfinite arr);
      let fi := select (arr_elems arr) mask in
      (* fi_arr = arr[np.isfinite(arr)] *)
      alloc (ONdarray {| arr_dtype := arr_dtype arr; arr_shape := [length fi];
                         arr_elems := fi |});;
      '(amin, amax) ← lift (min_max (arr_dtype arr) fi);
      below ← (lb ← getitem lims 0; lift (any_lt [amin] lb));
      outside ←
        (if below : bool then mret true
         else ub ← getitem lims 1; lift (any_gt [amax] ub));
      if outside : bool then
        lb ← getitem lims 0;
        ub ← getitem lims 1;
        raise (SPYValueError
                 ("all array elements to be bounded by " +:+ py_str lb +:+ " and "
                  +:+ py_str ub) varname None)
      else mret tt
  end.

(** The [dims] argument: a tuple with [None] for unknown dimensions, or
    an integer. *)
Inductive dims_arg : Type :=
| DimsTuple (dims : list (option Z))
| DimsInt (dims : Z).

(** [a < b] on tuples of integers. *)
Fixpoint tuple_lt (a b : list Z) : bool :=
  match a, b with
  | _, [] => false
  | [], _ :: _ => true
  | x :: a', y :: b' => (x <? y) || ((x =? y) && tuple_lt a' b')
  end.

(** [max(a, b)] on tuples: the first of the two unless the second is
    greater. *)
Definition tuple_max (a b : list Z) : list Z := if tuple_lt a b then b else a.

(** [arr.squeeze().shape] *)
Definition squeeze (shape : list nat) : list nat :=
  filter (fun n => n <> 1%nat) shape.

(** The loop over [enumerate(dims)]. *)
Fixpoint check_shape (arr : ndarray) (varname : string) (all_dims : list (option Z))
    (dims : list (option Z)) (ashape : list Z) : result unit :=
  match dims, ashape with
  | [], _ => Ok tt
  | _ :: _, [] => Raise (Builtin IndexError)
  | dim :: dims', n :: ashape' =>
      match dim with
      | Some d =>
          if decide (n = d) then check_shape arr varname all_dims dims' ashape'
          else Raise (SPYValueError ("array of shape " +:+ str_dims all_dims) varname
                        (Some ("shape = " +:+ str_shape (arr_shape arr))))
      | None => check_shape arr varname all_dims dims' ashape'
      end
  end.

(** The block under [if dims is not None]. *)
Definition check_dims (arr : ndarray) (varname : string) (dims : option dims_arg)
  : result unit :=
  match dims with
  | None => Ok tt
  | Some dims =>
      let ischar := if decide (arr_dtype arr = DStr) then 1 else 0 in
      match dims with
      | DimsTuple dims =>
          let ashape :=
            if (1 <? length dims)%nat then Z.of_nat <$> arr_shape arr
            else tuple_max [ischar] (Z.of_nat <$> squeeze (arr_shape arr)) in
          if decide (length dims = length ashape) then
            check_shape arr varname dims dims ashape
          else
            Raise (SPYValueError
                     (py_str (SInt (Z.of_nat (length dims))) +:+ "-dimensional array")
                     varname
                     (Some (py_str (SInt (Z.of_nat (length ashape)))
                            +:+ "-dimensional array")))
      | DimsInt dims =>
          let ndim := Z.max ischar (Z.of_nat (length (arr_shape arr))) in
          if decide (ndim = dims) then Ok tt
          else Raise (SPYValueError (py_str (SInt dims) +:+ "d-array") varname
                        (Some (py_str (SInt ndim) +:+ "d-array")))
      end
  end.

(** The type that is checked: "numeric" where bounds come without one. *)
Definition effective_ntype (ntype : option string) (lims : option pyval)
  : option string :=
  match lims, ntype with
  | Some _, None => Some "numeric"
  | _, _ => ntype
  end.

Definition array_parser (var : pyval) (varname : string) (ntype : option string)
    (hasinf hasnan : option bool) (lims : option pyval) (dims : option dims_arg)
  : M pyval :=
  o ← deref var;
  match o with
  | None => raise (SPYTypeError var varname "array_like")
  | Some o =>
      (* arr = np.array(var) *)
      let arr := np_array o in
      alloc (ONdarray arr);;
      let ntype := effective_ntype ntype lims in
      lift (check_ntype arr varname ntype);;
      lift (check_hasinf arr varname hasinf);;
      lift (check_hasnan arr varname hasnan);;
      check_lims arr varname lims;;
      lift (check_dims arr varname dims);;
      mret (Val SNone)
  end.

(** ** Calls that get as far as the bounds check *)




(** ** Calls on which no library function raises *)





(** An array element that is a finite number. *)
Definition elem_isfinite (e : elem) : bool :=
  match e with
  | ENum re im => isfinite re && isfinite im
  | _ => false
  end.



End WithLibraries.

(** ** Whole numbers and the entries of an array *)





(** ** [io_parser] *)

(** The [ext] argument: a string, a list of strings or an array of
    strings. *)
Inductive ext_arg : Type :=
| ExtStr (s : string)
| ExtList (l : list string)
| ExtArray (l : list string).

(** [len(ext)] *)
Definition ext_len (ext : ext_arg) : nat :=
  match ext with
  | ExtStr s => String.length s
  | ExtList l | ExtArray l => length l
  end.

(** What [io_parser] returns: nothing, a directory, or the path and the
    name of a file. *)
Inductive io_value : Type :=
| IoNone
| IoDir (fs_path : string)
| IoFile (fs_path fs_name : string).

(** [s[:-2]] *)
Definition drop_last2 (s : string) : string :=
  String.substring 0 (String.length s - 2) s.

(** The part of [s] in front of the first occurrence of [sep]. *)
Fixpoint before (s sep : string) : string :=
  match s with
  | EmptyString => EmptyString
  | String c s' => if String.prefix sep s then EmptyString else String c (before s' sep)
  end.

(** [s.split(sep)[0]]; an empty separator is a [ValueError]. *)
Definition split_head (s sep : string) : result string :=
  match sep with
  | EmptyString => Raise (Builtin ValueError)
  | _ => Ok (before s sep)
  end.

Definition io_warning : string :=
  "<io_parser> WARNING: filename extension(s) specified but `isfile = False`. Exiting...".

Section WithOs.

(** [os.path] and the file system it looks at. *)
Variable expanduser : string -> string.
Variable abspath : string -> string.
Variable basename : string -> string.
Variable splitext : string -> string * string.
Variable path_exists : string -> bool.
Variable path_isdir : string -> bool.
Variable path_isfile : string -> bool.
Variable repr_str : string -> string.

(** [str(ext)] *)
Definition ext_str (ext : ext_arg) : string :=
  match ext with
  | ExtStr s => s
  | ExtList l => "[" +:+ join ", " (repr_str <$> l) +:+ "]"
  | ExtArray l => "[" +:+ join " " (repr_str <$> l) +:+ "]"
  end.

(** The extensions as the error message lists them. *)
Definition ext_legal (ext : ext_arg) : string :=
  match ext with
  | ExtStr s => s
  | ExtList l | ExtArray l =>
      drop_last2 (join "" ((fun ex => ex +:+ ", ") <$> l))
  end.

(** The result and what is printed. *)
Definition io_parser (fs_loc : pyval) (varname : string) (isfile : bool)
    (ext : ext_arg) (exists_ : bool) : result io_value * list string :=
  if negb isfile && (0 <? ext_len ext)%nat then (Ok IoNone, [io_warning])
  else
    (match fs_loc with
     | Val (SStr fs_loc) =>
         let fs_loc := abspath (expanduser fs_loc) in
         if exists_ && negb (path_exists fs_loc) then Raise (SPYIOError fs_loc false)
         else if negb exists_ && path_exists fs_loc then Raise (SPYIOError fs_loc true)
         else if negb isfile then
           let isdir := path_isdir fs_loc in
           if isdir && negb exists_ then Raise (SPYIOError fs_loc isdir)
           else if negb isdir && exists_
                then Raise (SPYValueError "directory" "" (Some "file"))
                else Ok (IoDir fs_loc)
         else
           let file_name := basename fs_loc in
           (if (0 <? ext_len ext)%nat then
              let file_ext := replace (splitext file_name).2 "." "" in
              let error := (String.length file_ext =? 0)%nat in
              if negb (contains (ext_str ext) file_ext) || error
              then Raise (SPYValueError (ext_legal ext) "filename-extension"
                            (Some file_ext))
              else Ok tt
            else Ok tt);;
           let isfile := path_isfile fs_loc in
           if isfile && negb exists_ then Raise (SPYIOError fs_loc isfile)
           else if negb isfile && exists_
                then Raise (SPYValueError "file" "" (Some "directory"))
                else
                  fs_path ← split_head fs_loc file_name;
                  Ok (IoFile fs_path file_name)
     | _ => Raise (SPYTypeError fs_loc varname "str")
     end, []).

End WithOs.

(** ** [data_parser] *)

(** What [data_parser] reads of the object that it is given: the classes
    of its [__mro__] as [str] shows them, the name of its class, and the
    attributes [data] (only whether it is [None]), [mode] and [dimord] of
    a Syncopy data object. *)
Record spy_object : Type := {
  obj_mro : list string;
  obj_classname : string;
  obj_has_data : bool;
  obj_mode : string;
  obj_dimord : list string
}.

Definition dim_info (dimord : list string) : string :=
  "'" +:+ join "' x '" dimord +:+ "'".

Definition data_parser (data : pyval) (o : spy_object) (varname : string)
    (dataclass : option string) (writable empty : option bool)
    (dimord : option (list string)) : result pyval :=
  (if any ((fun base => contains base "BaseData") <$> obj_mro o) then Ok tt
   else Raise (SPYTypeError data varname "SynCoPy data object"));;
  match dataclass with
  | Some dataclass =>
      if contains dataclass (obj_classname o) then Ok tt
      else Raise (SPYTypeError data varname ("SynCoPy " +:+ dataclass +:+ " object"))
  | None => Ok tt
  end;;
  match empty with
  | Some true =>
      if obj_has_data o
      then Raise (SPYValueError "empty SpkeWave data object" varname (Some "non-empty"))
      else Ok tt
  | Some false =>
      if obj_has_data o then Ok tt
      else Raise (SPYValueError "non-empty SpkeWave data object" varname (Some "empty"))
  | None => Ok tt
  end;;
  match writable with
  | Some true =>
      if decide (obj_mode o = "r")
      then Raise (SPYValueError "write-access to SynCoPy data object" varname
                    (Some ("mode = " +:+ obj_mode o)))
      else Ok tt
  | Some false =>
      if decide (obj_mode o = "r") then Ok tt
      else Raise (SPYValueError "read-only-access to SynCoPy data object" varname
                    (Some ("mode = " +:+ obj_mode o)))
  | None => Ok tt
  end;;
  match dimord with
  | Some dimord =>
      if (0 <? length (obj_dimord o))%nat then
        if forallb (fun dim => bool_decide (dim ∈ obj_dimord o)) dimord then Ok tt
        else
          Raise (SPYValueError ("SynCoPy " +:+ dim_info dimord +:+ " data object")
                   varname
                   (Some ("SynCoPy " +:+ dim_info (obj_dimord o) +:+ " " +:+ " data object")))
      else Ok tt
  | None => Ok tt
  end;;
  Ok (Val SNone).

(** ** [json_parser] *)

Section WithIsinstance.

(** The classes that [wanted_dct] names, the builtin [isinstance] on
    them, and how a class reads where the exception shows it, belong to
    the interpreter. *)
Variable cls : Type.
Variable isinstance : pyval -> cls -> bool.
Variable str_cls : cls -> string.

(** The loop over [wanted_dct.items()]. *)
Fixpoint json_check_types (json_dct : gmap string pyval) (wanted_dct : list (string * cls))
  : result unit :=
  match wanted_dct with
  | [] => Ok tt
  | (key, tp) :: wanted_dct' =>
      match json_dct !! key with
      | Some v =>
          if isinstance v tp then json_check_types json_dct wanted_dct'
          else Raise (SPYTypeError v ("JSON: " +:+ key) (str_cls tp))
      | None => Raise (Builtin KeyError)
      end
  end.

(** [json_dct] is a dictionary with string keys; [wanted_dct] is given
    with its items in iteration order. *)
Definition json_parser (json_dct : gmap string pyval) (wanted_dct : list (string * cls))
  : result pyval :=
  if forallb (fun kv => bool_decide (is_Some (json_dct !! kv.1))) wanted_dct then
    json_check_types json_dct wanted_dct;;
    Ok (Val SNone)
  else
    Raise (SPYValueError
             ("mandatory fields "
              +:+ drop_last2 (join "" ((fun kv => kv.1 +:+ ", ") <$> wanted_dct)))
             "JSON" None).

End WithIsinstance.

(** ** Sample calls *)

(** [os.path.basename] and the extension part of [os.path.splitext] on
    POSIX paths. *)
Fixpoint posix_basename (p : string) : string :=
  match p with
  | EmptyString => EmptyString
  | String c p' =>
      if contains p' "/" then posix_basename p'
      else if Ascii.eqb c "/" then p' else p
  end.

Fixpoint posix_ext (name : string) : string :=
  match name with
  | EmptyString => EmptyString
  | String c name' =>
      if contains name' "." then posix_ext name'
      else if Ascii.eqb c "." then name else EmptyString
  end.

Definition posix_splitext (name : string) : string * string :=
  match name with
  | String "." _ => (name, EmptyString)
  | _ => (String.substring 0 (String.length name - String.length (posix_ext name)) name,
          posix_ext name)
  end.

(** A directory "/data" with the file "session1.lfp"; paths are handed
    over absolute and without "~". *)
Definition sample_exists (p : string) : bool :=
  bool_decide (p = "/data") || bool_decide (p = "/data/session1.lfp").
Definition sample_isdir (p : string) : bool := bool_decide (p = "/data").
Definition sample_isfile (p : string) : bool := bool_decide (p = "/data/session1.lfp").
Definition sample_repr (s : string) : string := "'" +:+ s +:+ "'".


Definition string_of_Z (z : Z) : string := NilZero.string_of_int (Z.to_int z).

(** The digits behind the decimal point of [num / den], at most [fuel]
    of them. *)
Fixpoint frac_digits (fuel : nat) (num den : Z) : string :=
  match fuel with
  | O => EmptyString
  | S fuel' =>
      if num =? 0 then EmptyString
      else string_of_Z (num * 10 / den) +:+ frac_digits fuel' ((num * 10) mod den) den
  end.

(** [str] on the scalars of the samples: integers and floats with a short
    decimal expansion. *)
Definition sample_str (s : scalar) : string :=
  let real x :=
    match x with
    | Fin q =>
        let d := Zpos (Qden q) in
        let a := Z.abs (Qnum q) in
        (if Qnum q <? 0 then "-" else "")
        +:+ string_of_Z (a / d) +:+ "."
        +:+ (if a mod d =? 0 then "0" else frac_digits 17 (a mod d) d)
    | PInf => "inf"
    | NInf => "-inf"
    | NaN => "nan"
    end in
  match s with
  | SNone => "None"
  | SBool b => if b then "True" else "False"
  | SInt z => string_of_Z z
  | SFloat x => real x
  | SComplex re im => "(" +:+ real re +:+ "+" +:+ real im +:+ "j)"
  | SStr t => t
  end.

Definition sample_str_dtype (dt : dtype) : string :=
  match dt with
  | DBool => "bool"
  | DInt => "int64"
  | DFloat => "float64"
  | DComplex => "complex128"
  | DStr => "<U8"
  | DObject => "object"
  end.

Definition sample_str_shape (shape : list nat) : string :=
  "(" +:+ join ", " ((fun n => string_of_Z (Z.of_nat n)) <$> shape) +:+ ")".

Definition sample_str_dims (dims : list (option Z)) : string :=
  "(" +:+ join ", " ((fun d => match d with Some z => string_of_Z z | None => "None" end)
                       <$> dims) +:+ ")".

(** [getattr] on the module [builtins]. *)
Definition sample_builtins_getattr (name : string) : result pytype :=
  if decide (name = "bool") then Ok TBool
  else if decide (name = "int") then Ok TInt
  else if decide (name = "float") then Ok TFloat
  else if decide (name = "complex") then Ok TComplex
  else if decide (name = "str") then Ok TStr
  else if bool_decide (name ∈ ["list"; "dict"; "tuple"; "object"; "len"])
       then Ok (TOther name)
       else Raise (Builtin AttributeError).

Definition sample_issubdtype (dt : dtype) (name : string) : result bool :=
  if decide (name = "bool") then Ok (bool_decide (dt = DBool))
  else if decide (name = "int") then Ok (bool_decide (dt = DInt))
  else if decide (name = "float") then Ok (bool_decide (dt = DFloat))
  else if decide (name = "complex") then Ok (bool_decide (dt = DComplex))
  else if decide (name = "str") then Ok (bool_decide (dt = DStr))
  else if decide (name = "object") then Ok true
  else Raise (Builtin TypeError).

(** A store with a list of measurements (one of them NaN), a list with
    NaN and infinity only, and the bounds 10 and 1000. *)
Definition sample_heap : heap :=
  {[ 1%positive := OList [SFloat (Fin 440); SFloat NaN; SFloat (Fin (881 # 2))];
     2%positive := OList [SFloat NaN; SFloat PInf];
     3%positive := OList [SInt 10; SInt 1000];
     4%positive := OList [SFloat NInf; SFloat PInf] ]}.

Definition sample_object : spy_object :=
  {| obj_mro := ["<class 'syncopy.datatype.continuous_data.AnalogData'>";
                 "<class 'syncopy.datatype.continuous_data.ContinuousData'>";
                 "<class 'syncopy.datatype.base_data.BaseData'>";
                 "<class 'abc.ABC'>"; "<class 'object'>"];
     obj_classname := "AnalogData";
     obj_has_data := true;
     obj_mode := "r";
     obj_dimord := ["time"; "channel"] |}.

End Parsers.

(* ===================================================================== *)
(** * syncopy/tests/misc.py *)
(* ===================================================================== *)

Module TestMisc.

(** ** Indexing *)

(** A Python index into a sequence of length [len]: negative indices count
    from the end, anything else out of range is an [IndexError]. *)
Definition py_index (len : nat) (i : Z) : result nat :=
  if (0 <=? i) && (i <? Z.of_nat len) then Ok (Z.to_nat i)
  else if (- Z.of_nat len <=? i) && (i <? 0) then Ok (Z.to_nat (Z.of_nat len + i))
  else Raise (Builtin IndexError).

(** [a[i]] *)
Definition getidx {A} (a : list A) (i : Z) : result A :=
  k ← py_index (length a) i;
  match a !! k with
  | Some x => Ok x
  | None => Raise (Builtin IndexError)
  end.

(** [a[i] = f(a[i])] *)
Definition alteridx {A} (f : A -> A) (a : list A) (i : Z) : result (list A) :=
  k ← py_index (length a) i; Ok (alter f k a).

(** [l.index(x)] *)
Fixpoint list_index (x : string) (l : list string) : result nat :=
  match l with
  | [] => Raise (Builtin ValueError)
  | y :: l' => if decide (y = x) then Ok O else k ← list_index x l'; Ok (S k)
  end.

(** A loop [for i in range(n)] with a body that may raise. *)
Fixpoint for_range {S} (body : nat -> S -> result S) (range : list nat) (s : S)
  : result S :=
  match range with
  | [] => Ok s
  | i :: range' => s' ← body i s; for_range body range' s'
  end.

(** ** [is_win_vm] *)

Definition vmlist : list string := ["vmware"; "virtual"; "virtualbox"; "vbox"; "qemu"].

Definition wmic_command : string := "wmic computersystem get manufacturer".

Section WithShell.

(** [sys.platform], what [subprocess.Popen(cmd, ...).communicate()] hands
    back as [(out, err)], and [str.split()] belong to the interpreter and
    the machine. *)
Variable platform : string.
Variable communicate : string -> string * string.
Variable split : string -> list string.

Definition is_win_vm : result bool :=
  if negb (String.eqb platform "win32") then Ok false
  else
    let '(out, err) := communicate wmic_command in
    if (String.length err =? 0)%nat then
      match split out !! 1%nat with
      | Some word =>
          let vendor := lower word in
          Ok (any ((fun virtual => contains vendor virtual) <$> vmlist))
      | None => Raise (Builtin IndexError)
      end
    else Ok false.

End WithShell.

(** ** The trial definition of [generate_artificial_data] *)

(** [t = np.arange(0, 3, dt)] with [dt = 0.001] has 3000 samples. *)
Definition t_size : Z := 3000.

(** A row [start, stop, offset] of a trial definition. *)
Definition row : Type := Z * Z * Z.

Definition start (r : row) : Z := r.1.1.
Definition stop (r : row) : Z := r.1.2.
Definition offset (r : row) : Z := r.2.

(** [trialdefinition[k, :2] += d] *)
Definition shift_bounds (d : Z) (r : row) : row := (start r + d, stop r + d, offset r).

(** [trialdefinition[k, 0] = v] and [trialdefinition[k, 1] = v] *)
Definition set_start (v : Z) (r : row) : row := (v, stop r, offset r).
Definition set_stop (v : Z) (r : row) : row := (start r, v, offset r).

(** Lines 120-143.  [integers low high size] is what
    [rng.integers(low, high, size)] hands back; it is used only for
    non-equidistant trials, with [low = int(0.1 * t.size) = 300] and
    [high = int(0.2 * t.size) = 600].  The entries are integers, also
    where the source holds them as floating-point numbers (the offsets 0.0
    and 100.0 of equidistant trials), so the arithmetic is that of the
    integers. *)
Definition build_trialdefinition (nTrials : nat) (equidistant overlapping : bool)
    (integers : Z -> Z -> nat -> list Z) : result (list row) :=
  let trialdefinition := replicate nTrials (0, 0, 0) in
  let equiOffset := if overlapping then 100 else 0 in
  let offsets :=
    if equidistant then replicate nTrials equiOffset
    else integers 300 600 nTrials in
  let shift := if overlapping then 1 else -1 in
  trialdefinition ←
    for_range (fun iTrial td =>
                 off ← getidx offsets (Z.of_nat iTrial);
                 alteridx (fun _ => (Z.of_nat iTrial * t_size - shift * off,
                                     (Z.of_nat iTrial + 1) * t_size + shift * off,
                                     1000))
                          td (Z.of_nat iTrial))
              (seq 0 nTrials) trialdefinition;
  if equidistant then
    trialdefinition ← alteridx (shift_bounds equiOffset) trialdefinition 0;
    alteridx (shift_bounds (- equiOffset)) trialdefinition (-1)
  else
    trialdefinition ← alteridx (set_start 0) trialdefinition 0;
    alteridx (set_stop (Z.of_nat nTrials * t_size)) trialdefinition (-1).




(** A trial that lies inside the data of [nTrials] trials. *)
Definition row_in_bounds (nTrials : nat) (r : row) : Prop :=
  0 <= start r /\ start r < stop r /\ stop r <= Z.of_nat nTrials * t_size.

(** ** HDF5 handles *)

(** The open HDF5 files: handle ↦ (file name, mode). *)
Abbreviation handles := (gmap positive (string * string)).

(** [h5py.File(name, mode)] *)
Definition h5_open (name mode : string) (w : handles) : positive * handles :=
  let h := fresh (dom w) in (h, <[h := (name, mode)]> w).

(** Closing a handle, as leaving the [with] block does. *)
Definition h5_close (h : positive) (w : handles) : handles := delete h w.

(** Where the samples of an [AnalogData] object are. *)
Inductive data_source : Type :=
| InMemory (shape : list Z)
| Dataset (h : positive) (shape : list Z).

(** The part of an [AnalogData] object that the function sets. *)
Record AnalogData : Type := {
  samplerate : Z;
  dimord : list string;
  data : data_source;
  trialdefinition : list row
}.

Section WithData.

(** [AnalogData._defaultDimord], the name of the file that backs a new
    [AnalogData] object, the random numbers, and whether writing the data
    of a trial to the HDF5 container fails belong to what surrounds the
    function. *)
Variable defaultDimord : list string.
Variable filename : string.
Variable integers : Z -> Z -> nat -> list Z.
Variable write_fails : nat -> bool.

(** The shape of the signal: [time] samples at [timeAxis], [nChannels] at
    the other axis. *)
Definition sig_shape (timeAxis : nat) (time : Z) (nChannels : nat) : list Z :=
  <[timeAxis := time]> [Z.of_nat nChannels; Z.of_nat nChannels].

Definition generate_artificial_data (nTrials nChannels : nat)
    (equidistant overlapping inmemory : bool) (dimord : option (list string))
    (w : handles) : result AnalogData * handles :=
  let dimord := default defaultDimord dimord in
  match
    timeAxis ← list_index "time" dimord;
    (* idx = [1, 1]; idx[timeAxis] = -1 *)
    if (timeAxis <? 2)%nat then Ok timeAxis else Raise (Builtin IndexError)
  with
  | Raise e => (Raise e, w)
  | Ok timeAxis =>
      let shape := sig_shape timeAxis (Z.of_nat nTrials * t_size) nChannels in
      let '(stored, w) :=
        if inmemory then (Ok (InMemory shape), w)
        else
          (* with h5py.File(out.filename, "w") as h5f: ... *)
          let '(h5f, w) := h5_open filename "w" w in
          let written :=
            for_range (fun iTrial (_ : unit) =>
                         if write_fails iTrial then Raise (Builtin OSError) else Ok tt)
                      (seq 0 nTrials) tt in
          let w := h5_close h5f w in
          match written with
          | Raise e => (Raise e, w)
          | Ok _ =>
              (* out.data = h5py.File(out.filename, "r+")["data"] *)
              let '(h, w) := h5_open filename "r+" w in
              (Ok (Dataset h shape), w)
          end in
      match stored with
      | Raise e => (Raise e, w)
      | Ok src =>
          match build_trialdefinition nTrials equidistant overlapping integers with
          | Raise e => (Raise e, w)
          | Ok td =>
              (Ok {| samplerate := 1000; dimord := dimord; data := src;
                     trialdefinition := td |}, w)
          end
      end
  end.

End WithData.

(** ** [figs_equal] *)

Section Figures.

(** Figures, images and tolerances are matplotlib's and NumPy's; [render]
    is the image that [savefig] writes unless it raises. *)
Variables figure image tolerance : Type.
Variable render : figure -> result image.
Variable array_equal : image -> image -> bool.
Variable allclose : image -> image -> tolerance -> bool.

(** The temporary files that exist: name ↦ content, [None] for a file
    nothing has been written to. *)
Abbreviation tmpfiles := (gmap positive (option image)).

(** [with tempfile.NamedTemporaryFile(suffix='.png') as img: body]: a new
    file under a fresh name, removed when the block is left, by a return
    or by an exception alike. *)
Definition with_tempfile {A} (body : positive -> tmpfiles -> result A * tmpfiles)
    (w : tmpfiles) : result A * tmpfiles :=
  let name := fresh (dom w) in
  let '(r, w) := body name (<[name := None]> w) in
  (r, delete name w).

(** [fig.savefig(name)] *)
Definition savefig (fig : figure) (name : positive) (w : tmpfiles)
  : result unit * tmpfiles :=
  match render fig with
  | Ok img => (Ok tt, <[name := Some img]> w)
  | Raise e => (Raise e, w)
  end.

(** [plt.imread(name)] *)
Definition imread (name : positive) (w : tmpfiles) : result image :=
  match w !! name with
  | Some (Some img) => Ok img
  | _ => Raise (Builtin OSError)
  end.

Definition figs_equal (fig1 fig2 : figure) (tol : option tolerance) (w : tmpfiles)
  : result bool * tmpfiles :=
  with_tempfile (fun img1 =>
    with_tempfile (fun img2 w =>
      match savefig fig1 img1 w with
      | (Raise e, w) => (Raise e, w)
      | (Ok _, w) =>
          match savefig fig2 img2 w with
          | (Raise e, w) => (Raise e, w)
          | (Ok _, w) =>
              (a ← imread img1 w;
               b ← imread img2 w;
               match tol with
               | None => Ok (array_equal a b)
               | Some tol => Ok (allclose a b tol)
               end, w)
          end
      end)) w.

(** [w'] holds what [w] holds, except possibly under the names in [X]. *)
Definition agree_off (X : gset positive) (w w' : tmpfiles) : Prop :=
  forall k, k ∉ X -> w' !! k = w !! k.

End Figures.

(** ** Sample calls *)

Definition sample_defaultDimord : list string := ["time"; "channel"].
Definition sample_filename : string := "spy_a1b2.analog".
Definition sample_integers (low high : Z) (size : nat) : list Z :=
  (fun i => low + (Z.of_nat i * 37) mod (high - low)) <$> seq 0 size.

End TestMisc.

(* ===================================================================== *)
(** * Facts about the string functions *)
(* ===================================================================== *)

Module PyFacts.

Lemma append_nil (b : string) : EmptyString +:+ b = b.
Proof. reflexivity. Qed.

Lemma append_cons c (a b : string) : String c a +:+ b = String c (a +:+ b).
Proof. reflexivity. Qed.

Lemma append_assoc (a b c : string) : (a +:+ b) +:+ c = a +:+ (b +:+ c).
Proof.
  induction a as [|x a IH]; [done|]. rewrite !append_cons. by f_equal.
Qed.


Lemma split_nl_not_nil (s : string) : split_nl s <> [].
Proof.
  induction s as [|c s IH]; simpl; [done|].
  destruct (Ascii.eqb c _); [done|]. by destruct (split_nl s).
Qed.




End PyFacts.

(* ===================================================================== *)
(** * Properties of conda2pip.py *)
(* ===================================================================== *)

Module Conda2pipProps.

Import Conda2pip.

(** ** Strings only *)

Lemma all_str_fmap (l : list node) :
  all_str l -> exists strs : list string, l = NStr <$> strs.
Proof.
  induction 1 as [|n l Hn _ [strs ->]].
  - by exists [].
  - destruct n as [s|m]; [|done]. by exists (s :: strs).
Qed.

Lemma fmap_all_str (strs : list string) : all_str (NStr <$> strs).
Proof. induction strs; by constructor. Qed.

Lemma mapM_startswith_ok p (l : list node) bs :
  mapM (node_startswith p) l = Ok bs -> all_str l /\ length bs = length l.
Proof.
  revert bs; induction l as [|n l IH]; intros bs H; simpl in H.
  - injection H as <-. by split; [constructor|].
  - destruct n as [s|m]; simpl in H; [|done].
    destruct (mapM (node_startswith p) l) as [bs'|e] eqn:E; simpl in H; [|done].
    injection H as <-. destruct (IH bs' eq_refl) as [IH1 IH2].
    split; [by constructor | simpl; by rewrite IH2].
Qed.

Lemma mapM_startswith_total p (l : list node) :
  all_str l -> exists bs, mapM (node_startswith p) l = Ok bs.
Proof.
  induction 1 as [|n l Hn _ [bs IH]]; [by exists []|].
  destruct n as [s|m]; [|done]. simpl. rewrite IH. simpl. eauto.
Qed.

Lemma mapM_startswith_head p m (l : list node) :
  mapM (node_startswith p) (NMap m :: l) = Raise (Builtin AttributeError).
Proof. reflexivity. Qed.

Lemma mapM_node_str (strs : list string) :
  mapM node_str (NStr <$> strs) = Ok strs.
Proof.
  induction strs as [|s strs IH]; [done|].
  rewrite fmap_cons. cbn [mapM node_str]. by rewrite IH.
Qed.

Lemma all_str_insert (l : list node) i n :
  all_str l -> isinstance_str n = true -> all_str (<[i := n]> l).
Proof. intros Hl Hn. by apply Forall_insert. Qed.

Lemma all_str_delete (l : list node) i : all_str l -> all_str (delete i l).
Proof. intros Hl. by apply Forall_delete. Qed.

Lemma all_str_app (l1 l2 : list node) :
  all_str l1 -> all_str l2 -> all_str (l1 ++ l2)%list.
Proof. intros. by apply Forall_app. Qed.

(** ** The conversion loop *)

Lemma convert_pkgs_str conv : forall (l l' : list node),
  all_str l -> convert_pkgs conv l = Ok l' -> all_str l'.
Proof.
  induction conv as [|[c p] conv IH]; intros l l' Hl H; simpl in H.
  - by injection H as <-.
  - destruct (mapM (node_startswith c) l) as [bs|e]; simpl in H; [|done].
    destruct (any bs); [|by eapply IH].
    destruct (l !! index_true bs) as [pkg|] eqn:Hpkg; [|done].
    destruct pkg as [s|m]; simpl in H; [|done].
    eapply IH; [|exact H]. by apply all_str_insert.
Qed.

Lemma convert_pkgs_input conv (l l' : list node) :
  conv <> [] -> convert_pkgs conv l = Ok l' -> all_str l.
Proof.
  destruct conv as [|[c p] conv]; [done|]. intros _ H; simpl in H.
  destruct (mapM (node_startswith c) l) as [bs|e] eqn:E; [|done].
  by apply mapM_startswith_ok in E as [? _].
Qed.

Lemma index_true_lt (bs : list bool) :
  any bs = true -> (index_true bs < length bs)%nat.
Proof.
  induction bs as [|[] bs IH]; simpl; intros H; [done|lia|].
  apply IH in H. lia.
Qed.

Lemma convert_pkgs_total conv : forall (l : list node),
  all_str l -> exists l', convert_pkgs conv l = Ok l'.
Proof.
  induction conv as [|[c p] conv IH]; intros l Hl; simpl; [eauto|].
  destruct (mapM_startswith_total c l Hl) as [bs Hbs]. rewrite Hbs. simpl.
  destruct (any bs) eqn:Hany; [|by apply IH].
  apply mapM_startswith_ok in Hbs as [_ Hlen].
  apply index_true_lt in Hany. rewrite Hlen in Hany.
  destruct (lookup_lt_is_Some_2 l _ Hany) as [pkg Hpkg]. rewrite Hpkg.
  assert (isinstance_str pkg = true) as Hs
    by (eapply Forall_lookup_1 in Hpkg; [exact Hpkg|exact Hl]).
  destruct pkg as [s|m]; [|done]. simpl.
  apply IH. by apply all_str_insert.
Qed.

(** ** [_process_comments] hands back strings *)

Lemma process_comments_str y needed optional :
  _process_comments y = Ok (needed, optional) ->
  all_str needed /\ all_str optional.
Proof.
  unfold _process_comments. intros H.
  destruct (convert_pkgs pkgConvert (items y)) as [seq|e] eqn:E; simpl in H; [|done].
  assert (all_str seq) as Hseq.
  { eapply convert_pkgs_str; [|exact E].
    by apply (convert_pkgs_input pkgConvert _ seq). }
  destruct (find_cutoff y (ca_items y) None) as [[c|]|e]; simpl in H; [| |done].
  - injection H as <- <-. split; [by apply Forall_take | by apply Forall_drop].
  - injection H as <- <-. split; [done | constructor].
Qed.

Lemma process_comments_head m rest ca lc :
  _process_comments (CSeq (NMap m :: rest) ca lc) = Raise (Builtin AttributeError).
Proof. reflexivity. Qed.

(** ** The comment scan on well-formed comments *)

Lemma mapM_slot_head_total (tokens : list slot) :
  forallb slot_ok tokens = true -> exists toks, mapM slot_head tokens = Ok toks.
Proof.
  induction tokens as [|t tokens IH]; simpl; intros H; [eauto|].
  apply andb_prop in H as [Ht Hts]. destruct (IH Hts) as [toks Htoks].
  rewrite Htoks. destruct t as [|tok|[|tok ts]]; simpl; eauto; done.
Qed.

Lemma scan_tokens_total y first lineno toks cutoff :
  getitem (lc_data y) O = Ok first ->
  exists c, scan_tokens y lineno toks cutoff = Ok c.
Proof.
  intros Hlc. induction toks as [|tok toks IH]; simpl; [eauto|].
  destruct (has_keyword tok); [|exact IH].
  destruct tok as [t|], lineno as [|n]; simpl; rewrite ?Hlc; simpl; eauto.
Qed.

Lemma find_cutoff_total y first ca : forall cutoff,
  getitem (lc_data y) O = Ok first ->
  forallb (fun e => forallb slot_ok e.2) ca = true ->
  exists c, find_cutoff y ca cutoff = Ok c.
Proof.
  induction ca as [|[lineno tokens] ca IH]; simpl; intros cutoff Hlc H; [eauto|].
  apply andb_prop in H as [Ht Hca].
  destruct (mapM_slot_head_total tokens Ht) as [toks ->]. simpl.
  destruct (scan_tokens_total y first lineno toks cutoff Hlc) as [c ->]. simpl.
  by apply IH.
Qed.

Lemma forallb_all_str (l : list node) :
  forallb isinstance_str l = true -> all_str l.
Proof. intros H. apply Forall_forall. intros n Hn. eapply forallb_forall in H; [done|]. by apply list_elem_of_In. Qed.

(** On a plain sequence [_process_comments] returns two lists of strings. *)
Lemma process_comments_total y :
  plain_seq y = true ->
  exists needed optional : list string,
    _process_comments y = Ok (NStr <$> needed, NStr <$> optional).
Proof.
  unfold plain_seq. intros H.
  apply andb_prop in H as [H Hlc]. apply andb_prop in H as [Hit Hca].
  destruct (getitem (lc_data y) O) as [first|] eqn:E; [|done].
  apply forallb_all_str in Hit.
  destruct (convert_pkgs_total pkgConvert _ Hit) as [seq Hseq].
  destruct (find_cutoff_total y first (ca_items y) None E Hca) as [c Hc].
  pose proof (convert_pkgs_str _ _ _ Hit Hseq) as Hstr.
  unfold _process_comments. rewrite Hseq. simpl. rewrite Hc. simpl.
  destruct c as [c|].
  - destruct (all_str_fmap (take c seq)) as [n ->]; [by apply Forall_take|].
    destruct (all_str_fmap (drop c seq)) as [o ->]; [by apply Forall_drop|].
    eauto.
  - destruct (all_str_fmap seq Hstr) as [n ->]. by exists n, [].
Qed.

(** ** The two lists *)

Lemma find_pipIndex_str (l : list node) : forall index pipIndex,
  all_str l -> find_pipIndex index l pipIndex = pipIndex.
Proof.
  induction l as [|n l IH]; intros index pipIndex H; [done|].
  inversion H as [|? ? Hn Hl]; subst. simpl. rewrite Hn. by apply IH.
Qed.

Lemma collect_str pop_ca deps required testing :
  collect pop_ca deps = Ok (required, testing) ->
  all_str required /\ all_str testing.
Proof.
  unfold collect. intros H.
  match type of H with
  | mbind _ ?m = _ => destruct m as [[[r0 t0] deps0]|e] eqn:E0
  end; simpl in H; [|done].
  assert (all_str r0 /\ all_str t0) as [Hr0 Ht0].
  { destruct (find_pipIndex 0 (items deps) None) as [[|i]|].
    1, 3: by injection E0 as <- <- _; split; constructor.
    destruct (seq_pop pop_ca deps (S i)) as [[pipDeps deps1]|]; simpl in E0; [|done].
    destruct (node_getitem pipDeps "pip") as [pip|]; simpl in E0; [|done].
    destruct (_process_comments pip) as [[pipReq pipTest]|] eqn:Ep; simpl in E0; [|done].
    injection E0 as <- <- _. by apply process_comments_str in Ep. }
  destruct (_process_comments deps0) as [[condaReq condaTest]|] eqn:Ec; simpl in H; [|done].
  apply process_comments_str in Ec as [Hcr Hct].
  destruct (mapM (node_startswith "python") (r0 ++ condaReq)%list) as [pyReq|];
    simpl in H; [|done].
  injection H as <- <-. split; [|by apply all_str_app].
  destruct (any pyReq); [apply all_str_delete|]; by apply all_str_app.
Qed.

(** Without a mapping among the items, and with well-formed comments,
    both lists are computed. *)
Lemma collect_plain pop_ca deps :
  plain_seq deps = true ->
  exists required testing : list string,
    collect pop_ca deps = Ok (NStr <$> required, NStr <$> testing).
Proof.
  intros Hp.
  destruct (process_comments_total deps Hp) as (needed & optional & Hpc).
  assert (all_str (items deps)) as Hit.
  { unfold plain_seq in Hp. apply andb_prop in Hp as [Hp _].
    apply andb_prop in Hp as [Hp _]. by apply forallb_all_str. }
  destruct (mapM_startswith_total "python" (NStr <$> needed) (fmap_all_str _))
    as [pyReq Hpy].
  unfold collect. rewrite (find_pipIndex_str _ _ _ Hit). simpl.
  rewrite Hpc. simpl. rewrite Hpy. simpl.
  destruct (all_str_fmap (if any pyReq then delete (index_true pyReq) (NStr <$> needed)
                          else NStr <$> needed)) as [req Hreq].
  { destruct (any pyReq); [apply all_str_delete|]; apply fmap_all_str. }
  rewrite Hreq. eauto.
Qed.

(** ** Writing the files *)

Lemma msg_join script stamp (pkgs : list string) :
  msg script stamp +:+ join nl pkgs = requirements_text script stamp pkgs.
Proof.
  unfold msg, requirements_text. by rewrite !PyFacts.append_assoc.
Qed.

Lemma write_file_str name script stamp (pkgs : list string) (fs : gmap string string) :
  write_file name (msg script stamp) (NStr <$> pkgs) fs
  = (Ok tt, <[name := requirements_text script stamp pkgs]> fs).
Proof.
  unfold write_file. rewrite mapM_node_str, !alter_insert_eq.
  change (EmptyString +:+ msg script stamp) with (msg script stamp).
  by rewrite msg_join.
Qed.

(** The whole run, once the two lists are known. *)
Lemma conda2pip_run pop_ca deps rl script stamp (fs : gmap string string)
    (required testing : list string) :
  collect pop_ca deps = Ok (NStr <$> required, NStr <$> testing) ->
  conda2pip pop_ca deps rl script stamp fs
  = (Ok (if rl then Some (NStr <$> required, NStr <$> testing) else None),
     match testing with
     | [] => <["requirements.txt" := requirements_text script stamp required]> fs
     | _ => <["requirements-test.txt" := requirements_text script stamp testing]>
              (<["requirements.txt" := requirements_text script stamp required]> fs)
     end).
Proof.
  intros H. unfold conda2pip. rewrite H, write_file_str.
  destruct testing as [|t testing]; [done|].
  rewrite length_fmap. cbn [length Nat.ltb Nat.leb].
  by rewrite write_file_str.
Qed.

Lemma conda2pip_raise pop_ca deps rl script stamp (fs : gmap string string) e :
  collect pop_ca deps = Raise e ->
  conda2pip pop_ca deps rl script stamp fs = (Raise e, fs).
Proof. intros H. unfold conda2pip. by rewrite H. Qed.

(** A run is one of the two above. *)
Lemma collect_cases pop_ca deps :
  (exists e, collect pop_ca deps = Raise e)
  \/ (exists required testing : list string,
        collect pop_ca deps = Ok (NStr <$> required, NStr <$> testing)).
Proof.
  destruct (collect pop_ca deps) as [[r t]|e] eqn:E; [right|left; eauto].
  apply collect_str in E as [Hr Ht].
  destruct (all_str_fmap r Hr) as [req ->], (all_str_fmap t Ht) as [test ->].
  eauto.
Qed.

(** ** Which files are written *)

(** C2, as stated, fails: on an environment file without a comment that
    marks testing packages, [conda2pip] returns normally, writes
    "requirements.txt" and leaves the working directory without a
    "requirements-test.txt". *)
Lemma conda2pip_without_test_file :
  let run := conda2pip ruamel_pop_ca sample_plain false sample_script sample_stamp ∅ in
  run.1 = Ok None
  /\ run.2 !! "requirements.txt"
     = Some (requirements_text sample_script sample_stamp
               ["numpy >= 1.15"; "scipy >= 1.5, < 1.6"])
  /\ run.2 !! "requirements-test.txt" = None.
Proof.
  assert (collect ruamel_pop_ca sample_plain
          = Ok (NStr <$> ["numpy >= 1.15"; "scipy >= 1.5, < 1.6"], NStr <$> []))
    as H by reflexivity.
  cbv zeta. rewrite (conda2pip_run _ _ _ _ _ _ _ _ H). simpl.
  split; [done|]. split; [by rewrite lookup_insert_eq|].
  by rewrite lookup_insert_ne.
Qed.

(** C2, amended: once the lists [required] and [testing] are computed,
    [conda2pip] returns; it has written "requirements.txt" with the
    required packages, it has written "requirements-test.txt" with the
    testing packages exactly when there is a testing package, whatever
    either file held before is gone, and no other file has changed. *)
Theorem conda2pip_writes_files pop_ca deps rl script stamp
    (fs : gmap string string) required testing :
  collect pop_ca deps = Ok (required, testing) ->
  exists req test : list string,
    required = NStr <$> req /\ testing = NStr <$> test /\
    let run := conda2pip pop_ca deps rl script stamp fs in
    run.1 = Ok (if rl then Some (required, testing) else None)
    /\ run.2 !! "requirements.txt" = Some (requirements_text script stamp req)
    /\ run.2 !! "requirements-test.txt"
       = (if decide (test = []) then fs !! "requirements-test.txt"
          else Some (requirements_text script stamp test))
    /\ forall name, name <> "requirements.txt" -> name <> "requirements-test.txt" ->
         run.2 !! name = fs !! name.
Proof.
  intros H. destruct (collect_str _ _ _ _ H) as [Hr Ht].
  destruct (all_str_fmap _ Hr) as [req ->], (all_str_fmap _ Ht) as [test ->].
  exists req, test. split; [done|]. split; [done|]. cbv zeta.
  rewrite (conda2pip_run _ _ rl script stamp fs _ _ H). simpl.
  split; [done|]. destruct test as [|t test].
  - rewrite decide_True by done. rewrite lookup_insert_eq.
    split; [done|]. split; [by rewrite lookup_insert_ne|].
    intros name Hn _. by rewrite lookup_insert_ne.
  - rewrite decide_False by done. rewrite lookup_insert_eq.
    rewrite lookup_insert_ne, lookup_insert_eq by done.
    split; [done|]. split; [done|].
    intros name Hn1 Hn2. by rewrite !lookup_insert_ne.
Qed.

Lemma conda2pip_writes_files_witness :
  collect ruamel_pop_ca sample_docstring
  = Ok (NStr <$> ["numpy >= 1.15"; "scipy >= 1.5, < 1.6"],
        NStr <$> ["sphinx_automodapi"; "matplotlib >= 3.3, < 3.5"])
  /\ exists req test : list string,
       (NStr <$> ["numpy >= 1.15"; "scipy >= 1.5, < 1.6"]) = NStr <$> req
       /\ (NStr <$> ["sphinx_automodapi"; "matplotlib >= 3.3, < 3.5"]) = NStr <$> test
       /\ let run := conda2pip ruamel_pop_ca sample_docstring true sample_script
                       sample_stamp {["requirements.txt" := "numpy"]} in
          run.1 = Ok (Some (NStr <$> ["numpy >= 1.15"; "scipy >= 1.5, < 1.6"],
                            NStr <$> ["sphinx_automodapi"; "matplotlib >= 3.3, < 3.5"]))
          /\ run.2 !! "requirements.txt"
             = Some (requirements_text sample_script sample_stamp req)
          /\ run.2 !! "requirements-test.txt"
             = (if decide (test = [])
                then ({["requirements.txt" := "numpy"]} : gmap string string)
                       !! "requirements-test.txt"
                else Some (requirements_text sample_script sample_stamp test))
          /\ forall name, name <> "requirements.txt" -> name <> "requirements-test.txt" ->
               run.2 !! name
               = ({["requirements.txt" := "numpy"]} : gmap string string) !! name.
Proof.
  split; [reflexivity|].
  apply (conda2pip_writes_files ruamel_pop_ca sample_docstring true sample_script
           sample_stamp {["requirements.txt" := "numpy"]}).
  reflexivity.
Defined.

(** ** The layout of a requirements file *)




(** ** A "pip" section at index 0 *)

Lemma find_pipIndex_Some (l : list node) : forall index j,
  (j < index)%nat ->
  find_pipIndex index l (Some j) = Some j
  \/ exists k, (index <= k)%nat /\ find_pipIndex index l (Some j) = Some k.
Proof.
  induction l as [|n l IH]; intros index j Hj; simpl; [by left|].
  destruct (isinstance_str n).
  - destruct (IH (S index) j) as [H|(k & Hk & H)]; [lia|by left|].
    right. exists k. split; [lia|done].
  - destruct (IH (S index) index) as [H|(k & Hk & H)]; [lia| |].
    + right. exists index. split; [lia|done].
    + right. exists k. split; [lia|done].
Qed.

Lemma collect_pip_first pop_ca m rest ca lc :
  exists e, collect pop_ca (CSeq (NMap m :: rest) ca lc) = Raise e.
Proof.
  unfold collect. cbn [items find_pipIndex isinstance_str].
  destruct (find_pipIndex_Some rest 1 0) as [->|(k & Hk & ->)]; [lia| |].
  { simpl. eauto. }
  destruct k as [|k]; [lia|].
  unfold seq_pop. cbn [items lookup list_lookup ca_items lc_data].
  change ((NMap m :: rest) !! S k) with (rest !! k).
  destruct (rest !! k) as [n|]; simpl; [|eauto].
  destruct (node_getitem n "pip") as [pip|]; simpl; [|eauto].
  destruct (_process_comments pip) as [[pipReq pipTest]|]; simpl; eauto.
Qed.

(** C7: with a mapping (the "pip" section) as first item of the
    dependencies [conda2pip] raises and leaves the files as they are: no
    list is returned and no file is written, so the pip packages are in
    no output. *)
Theorem pip_section_first_ignored pop_ca m rest ca lc rl script stamp
    (fs : gmap string string) :
  exists e,
    conda2pip pop_ca (CSeq (NMap m :: rest) ca lc) rl script stamp fs = (Raise e, fs).
Proof.
  destruct (collect_pip_first pop_ca m rest ca lc) as [e He].
  exists e. by apply conda2pip_raise.
Qed.

(** With no other mapping among the items the exception is the
    [AttributeError] of [pkg.startswith] on the mapping. *)
Lemma pip_section_only_first pop_ca m rest ca lc rl script stamp
    (fs : gmap string string) :
  all_str rest ->
  conda2pip pop_ca (CSeq (NMap m :: rest) ca lc) rl script stamp fs
  = (Raise (Builtin AttributeError), fs).
Proof.
  intros Hrest. apply conda2pip_raise. unfold collect.
  cbn [items find_pipIndex isinstance_str].
  by rewrite (find_pipIndex_str _ _ _ Hrest).
Qed.

(** So it is with the sample file. *)
Lemma pip_section_first_sample :
  conda2pip ruamel_pop_ca sample_pip_first true sample_script sample_stamp ∅
  = (Raise (Builtin AttributeError), ∅).
Proof. reflexivity. Qed.

End Conda2pipProps.

(* ===================================================================== *)
(** * Properties of syncopy/utils/parsers.py *)
(* ===================================================================== *)

Module ParsersProps.

Import Parsers.

(** ** The store only grows *)

Lemma extends_ret {A} (a : A) : extends (mret a).
Proof. by intros h. Qed.

Lemma extends_raise {A} e : extends (@raise A e).
Proof. by intros h. Qed.

Lemma extends_lift {A} (r : result A) : extends (lift r).
Proof. by intros h. Qed.

Lemma extends_deref v : extends (deref v).
Proof. by intros h. Qed.

Lemma extends_alloc o : extends (alloc o).
Proof.
  intros h. unfold alloc. simpl.
  apply insert_subseteq, not_elem_of_dom, is_fresh.
Qed.

Lemma extends_bind {A B} (m : M A) (k : A -> M B) :
  extends m -> (forall a, extends (k a)) -> extends (m ≫= k).
Proof.
  intros Hm Hk h. unfold mbind, M_bind. specialize (Hm h).
  destruct (m h) as [[a|e] h']; simpl in *; [|done].
  etrans; [exact Hm|]. apply Hk.
Qed.

Ltac extends_step :=
  first
    [ apply extends_ret | apply extends_raise | apply extends_lift
    | apply extends_deref | apply extends_alloc
    | apply extends_bind; [|intros ?]
    | match goal with
      | |- extends (match ?x with _ => _ end) => destruct x
      end ].

Ltac solve_extends := repeat extends_step.

Lemma extends_getitem x i : extends (getitem x i).
Proof. unfold getitem. solve_extends. Qed.

(** ** What is returned *)

Lemma returns_ret {A} (v : A) : returns v (mret v).
Proof. intros h a [= <-]. done. Qed.

Lemma returns_raise {A} (v : A) e : returns v (raise e).
Proof. intros h a [=]. Qed.

Lemma returns_bind {A B} (v : B) (m : M A) (k : A -> M B) :
  (forall a, returns v (k a)) -> returns v (m ≫= k).
Proof.
  intros Hk h b. unfold mbind, M_bind.
  destruct (m h) as [[a|e] h']; simpl; [apply Hk|done].
Qed.

Section WithLibraries.

Variable py_str : scalar -> string.
Variable str_dtype : dtype -> string.
Variable str_shape : list nat -> string.
Variable str_dims : list (option Z) -> string.
Variable builtins_getattr : string -> result pytype.
Variable issubdtype_name : dtype -> string -> result bool.

Lemma extends_scalar_check_lims var varname lims :
  extends (scalar_check_lims py_str var varname lims).
Proof.
  unfold scalar_check_lims. destruct lims; [|apply extends_ret].
  repeat first [ apply extends_getitem | extends_step ].
Qed.

Lemma extends_scalar_parser var varname ntype lims :
  extends (scalar_parser py_str builtins_getattr var varname ntype lims).
Proof.
  unfold scalar_parser.
  destruct var as [[]|]; try apply extends_raise;
    repeat first [ apply extends_scalar_check_lims | extends_step ].
Qed.

Lemma extends_check_lims arr varname lims :
  extends (check_lims py_str arr varname lims).
Proof.
  unfold check_lims. destruct lims; [|apply extends_ret].
  repeat first [ apply extends_getitem | extends_step ].
Qed.

Lemma extends_array_parser var varname ntype hasinf hasnan lims dims :
  extends (array_parser py_str str_dtype str_shape str_dims issubdtype_name
             var varname ntype hasinf hasnan lims dims).
Proof.
  unfold array_parser.
  apply extends_bind; [apply extends_deref|intros [o|]]; [|apply extends_raise].
  repeat first [ apply extends_check_lims | extends_step ].
Qed.

Lemma returns_scalar_parser var varname ntype lims :
  returns (Val SNone) (scalar_parser py_str builtins_getattr var varname ntype lims).
Proof.
  unfold scalar_parser.
  destruct var as [[]|]; try apply returns_raise;
    (apply returns_bind; intros _; apply returns_bind; intros _; apply returns_ret).
Qed.

Lemma returns_array_parser var varname ntype hasinf hasnan lims dims :
  returns (Val SNone)
    (array_parser py_str str_dtype str_shape str_dims issubdtype_name
       var varname ntype hasinf hasnan lims dims).
Proof.
  unfold array_parser. apply returns_bind. intros [o|]; [|apply returns_raise].
  do 6 (apply returns_bind; intros _). apply returns_ret.
Qed.

(** C6: [scalar_parser] and [array_parser] return nothing but [None] (a
    call that does not return [None] ends in an error), and every object
    of the store (the list or array behind [var], the list behind [lims])
    is afterwards what it was before: [array_parser] works on the new
    array [np.array(var)], both only read [lims]. *)
Theorem parsers_leave_arguments var varname ntype hasinf hasnan lims dims (h : heap) :
  let run_scalar := scalar_parser py_str builtins_getattr var varname ntype lims h in
  let run_array :=
    array_parser py_str str_dtype str_shape str_dims issubdtype_name
      var varname ntype hasinf hasnan lims dims h in
  ((forall v, run_scalar.1 = Ok v -> v = Val SNone)
   /\ forall l o, h !! l = Some o -> run_scalar.2 !! l = Some o)
  /\ ((forall v, run_array.1 = Ok v -> v = Val SNone)
      /\ forall l o, h !! l = Some o -> run_array.2 !! l = Some o).
Proof.
  cbv zeta. split; split.
  - apply returns_scalar_parser.
  - intros l o Hl.
    by eapply lookup_weaken; [|apply extends_scalar_parser].
  - apply returns_array_parser.
  - intros l o Hl.
    by eapply lookup_weaken; [|apply extends_array_parser].
Qed.

(** ** Bounds and values that are not finite *)


Lemma bind_run {A B} (m : M A) (k : A -> M B) (h h' : heap) a :
  m h = (Ok a, h') -> (m ≫= k) h = k a h'.
Proof. intros H. unfold mbind, M_bind. by rewrite H. Qed.

Lemma bind_raise {A B} (m : M A) (k : A -> M B) (h h' : heap) e :
  m h = (Raise e, h') -> (m ≫= k) h = (Raise e, h').
Proof. intros H. unfold mbind, M_bind. by rewrite H. Qed.







(** ** Bounds on an array without a finite element *)

Lemma np_isfinite_mask arr :
  arr_dtype arr <> DStr -> arr_dtype arr <> DObject ->
  np_isfinite arr = Ok (elem_isfinite <$> arr_elems arr).
Proof.
  intros H1 H2. unfold np_isfinite, elementwise.
  destruct (arr_dtype arr); done.
Qed.

Lemma select_none (l : list elem) :
  Forall (fun e => elem_isfinite e = false) l ->
  select l (elem_isfinite <$> l) = [].
Proof.
  induction 1 as [|e l He _ IH]; [done|]. simpl. by rewrite He.
Qed.

Lemma min_max_empty dt : min_max dt [] = Raise (Builtin ValueError).
Proof. unfold min_max. by destruct (decide (dt = DComplex)). Qed.

(** The bounds check on an array without a finite element ends in the
    [ValueError] of the reduction, before the bounds are looked at. *)
Lemma check_lims_no_finite_element arr varname lims (h : heap) :
  is_numeric (arr_dtype arr) = true ->
  Forall (fun e => elem_isfinite e = false) (arr_elems arr) ->
  exists h',
    check_lims py_str arr varname (Some lims) h = (Raise (Builtin ValueError), h').
Proof.
  intros Hnum Hall. unfold check_lims.
  rewrite (bind_run _ _ h h (elem_isfinite <$> arr_elems arr)).
  2:{ unfold lift. rewrite np_isfinite_mask; [done|..];
        by destruct (arr_dtype arr). }
  rewrite select_none by done.
  eexists. erewrite bind_run; [|reflexivity].
  apply bind_raise. unfold lift. by rewrite min_max_empty.
Qed.


(** With [ntype], [hasinf] and [hasnan] left out nothing comes before
    the bounds check. *)
Lemma array_parser_no_finite_element_default l o varname lims dims (h : heap) :
  h !! l = Some o ->
  is_numeric (arr_dtype (np_array py_str o)) = true ->
  Forall (fun e => elem_isfinite e = false) (arr_elems (np_array py_str o)) ->
  (array_parser py_str str_dtype str_shape str_dims issubdtype_name
     (Ref l) varname None None None (Some lims) dims h).1
  = Raise (Builtin ValueError).
Proof.
  intros Hl Hnum Hall. unfold array_parser.
  rewrite (bind_run _ _ h h (Some o)) by (unfold deref; by rewrite Hl).
  erewrite bind_run; [|reflexivity].
  erewrite bind_run.
  2:{ unfold lift, check_ntype. simpl. rewrite Hnum. done. }
  erewrite bind_run; [|reflexivity].
  erewrite bind_run; [|reflexivity].
  match goal with
  | |- ((check_lims _ _ _ _ ≫= _) ?h1).1 = _ =>
      destruct (check_lims_no_finite_element (np_array py_str o) varname lims h1
                  Hnum Hall) as [h' Hlims]
  end.
  by rewrite (bind_raise _ _ _ _ _ Hlims).
Qed.

(** ** Which errors are raised *)







(** *** The stages of [array_parser] *)












End WithLibraries.

(** *** [data_parser] and [io_parser] *)


Section WithOs.

Variable expanduser : string -> string.
Variable abspath : string -> string.
Variable basename : string -> string.
Variable splitext : string -> string * string.
Variable path_exists : string -> bool.
Variable path_isdir : string -> bool.
Variable path_isfile : string -> bool.
Variable repr_str : string -> string.



End WithOs.

(** ** C1: how invalid input is signalled *)




(** What these sample calls end in. *)
Lemma sample_calls :
  (io_parser id id posix_basename posix_splitext sample_exists sample_isdir
     sample_isfile sample_repr (Val (SStr "/data/session1.lfp")) "freq" true
     (ExtList ["lfp"; "mua"]) true).1
  = Ok (IoFile "/data/" "session1.lfp")
  /\ (scalar_parser sample_str sample_builtins_getattr (Val (SFloat (Fin (881 # 2))))
        "freq" (Some "int_like") (Some (Ref 3)) sample_heap).1
     = Raise (SPYValueError "int_like" "freq" (Some "440.5"))
  /\ (array_parser sample_str sample_str_dtype sample_str_shape sample_str_dims
        sample_issubdtype (Ref 1) "freq" None None (Some false) (Some (Ref 3))
        (Some (DimsInt 1)) sample_heap).1
     = Raise (SPYValueError "well-defined numerical array" "freq"
                (Some "array with 1 `NaN` entries"))
  /\ data_parser (Ref 5) sample_object "freq" (Some "SpikeData") None None None
     = Raise (SPYTypeError (Ref 5) "freq" "SynCoPy SpikeData object").
Proof. repeat split; reflexivity. Qed.

(** ** C6, C8 and C9 on the sample store *)

Lemma parsers_leave_arguments_witness :
  let run_scalar :=
    scalar_parser sample_str sample_builtins_getattr (Val (SInt 440)) "freq"
      (Some "int_like") (Some (Ref 3)) sample_heap in
  let run_array :=
    array_parser sample_str sample_str_dtype sample_str_shape sample_str_dims
      sample_issubdtype (Ref 1) "freq" None None None (Some (Ref 3)) None sample_heap in
  (sample_heap !! 3%positive = Some (OList [SInt 10; SInt 1000])
   -> run_scalar.2 !! 3%positive = Some (OList [SInt 10; SInt 1000]))
  /\ (sample_heap !! 3%positive = Some (OList [SInt 10; SInt 1000])
      -> run_array.2 !! 3%positive = Some (OList [SInt 10; SInt 1000])).
Proof.
  destruct (parsers_leave_arguments sample_str sample_str_dtype sample_str_shape
              sample_str_dims sample_builtins_getattr sample_issubdtype
              (Ref 1) "freq" None None None (Some (Ref 3)) None sample_heap)
    as [_ [_ Harray]].
  destruct (parsers_leave_arguments sample_str sample_str_dtype sample_str_shape
              sample_str_dims sample_builtins_getattr sample_issubdtype
              (Val (SInt 440)) "freq" (Some "int_like") None None (Some (Ref 3))
              None sample_heap)
    as [[_ Hscalar] _].
  split; [apply Hscalar | apply Harray].
Defined.



(** A type that is asked for and that the number does not have comes
    first: the error is then an [SPYTypeError]. *)
Lemma scalar_parser_type_before_bounds :
  (scalar_parser sample_str sample_builtins_getattr (Val (SFloat NaN)) "freq" (Some "int")
     (Some (Ref 4)) sample_heap).1
  = Raise (SPYTypeError (Val (SFloat NaN)) "freq" "int").
Proof. reflexivity. Qed.

(** An entry test that is asked for and that the array fails comes first
    as well. *)
Lemma array_parser_hasnan_before_bounds :
  (array_parser sample_str sample_str_dtype sample_str_shape sample_str_dims
     sample_issubdtype (Ref 2) "freq" None None (Some false) (Some (Ref 3)) None
     sample_heap).1
  = Raise (SPYValueError "well-defined numerical array" "freq"
             (Some "array with 1 `NaN` entries")).
Proof. reflexivity. Qed.

End ParsersProps.

(* ===================================================================== *)
(** * Properties of syncopy/tests/misc.py *)
(* ===================================================================== *)

Module TestMiscProps.

Import TestMisc.

(** ** Indexing *)



Lemma py_index_empty i : py_index 0 i = Raise (Builtin IndexError).
Proof.
  unfold py_index.
  destruct (Z.leb_spec 0 i), (Z.ltb_spec i (Z.of_nat 0)),
    (Z.leb_spec (- Z.of_nat 0) i), (Z.ltb_spec i 0); simpl; try done; lia.
Qed.




(** ** The loop that fills the table *)

Section Fill.

Variable mk : nat -> Z -> row.
Variable offsets : list Z.


End Fill.


(** ** The table in closed form *)


(** ** C3: the rows and the data bounds *)

(** C3 fails for a single equidistant, overlapping trial: the offset that
    is added to the first row is taken off again because the first row is
    the last one, and the table that [generate_artificial_data] hands to
    [definetrial] holds the one row [-100, 3100, 1000], for a signal that
    has the samples 0 to 3000. *)
Theorem single_overlapping_trial_out_of_bounds filename integers write_fails
    nChannels (w : handles) :
  build_trialdefinition 1 true true integers = Ok [(-100, 3100, 1000)]
  /\ (generate_artificial_data sample_defaultDimord filename integers write_fails
        1 nChannels true true true None w).1
     = Ok {| samplerate := 1000; dimord := ["time"; "channel"];
             data := InMemory [3000; Z.of_nat nChannels];
             trialdefinition := [(-100, 3100, 1000)] |}
  /\ ~ row_in_bounds 1 (-100, 3100, 1000).
Proof.
  split; [reflexivity|]. split; [reflexivity|].
  unfold row_in_bounds, start, stop, t_size. simpl. lia.
Qed.


(** ** C4: temporary files and HDF5 handles *)

Section FiguresProps.

Context {figure image tolerance : Type}.
Variable render : figure -> result image.
Variable array_equal : image -> image -> bool.
Variable allclose : image -> image -> tolerance -> bool.

Lemma agree_off_refl X (w : gmap positive (option image)) : agree_off image X w w.
Proof. by intros k _. Qed.

Lemma savefig_agree fig name (w : gmap positive (option image)) :
  agree_off image {[name]} w (savefig figure image render fig name w).2.
Proof.
  unfold savefig. destruct (render fig) as [img|e]; simpl; [|apply agree_off_refl].
  intros k Hk. apply lookup_insert_ne. set_solver.
Qed.

(** A block that touches nothing but its own file and the files in [X]
    leaves, once its file is removed, everything outside [X] as it was. *)
Lemma with_tempfile_agree {A} X
    (body : positive -> gmap positive (option image) -> result A * gmap positive (option image)) w :
  (forall name w0, agree_off image (X ∪ {[name]}) w0 (body name w0).2) ->
  agree_off image X w (with_tempfile image body w).2.
Proof.
  intros Hbody k Hk. unfold with_tempfile.
  set (name := fresh (dom w)).
  assert (w !! name = None) as Hfresh by apply not_elem_of_dom, is_fresh.
  specialize (Hbody name (<[name := None]> w)).
  destruct (body name (<[name := None]> w)) as [r w'] eqn:E. simpl in *.
  destruct (decide (k = name)) as [->|Hne].
  - by rewrite lookup_delete_eq.
  - rewrite lookup_delete_ne by done.
    assert (k ∉ X ∪ {[name]}) as Hk' by (apply not_elem_of_union; set_solver).
    rewrite (Hbody _ Hk'). by rewrite lookup_insert_ne.
Qed.

Lemma figs_equal_tmpfiles fig1 fig2 tol (w : gmap positive (option image)) :
  (figs_equal figure image tolerance render array_equal allclose fig1 fig2 tol w).2 = w.
Proof.
  apply map_eq. intros k. unfold figs_equal.
  apply (with_tempfile_agree ∅); [|set_solver].
  intros img1 w1. apply with_tempfile_agree.
  intros img2 w2 j Hj.
  pose proof (savefig_agree fig1 img1 w2 j) as H1.
  destruct (savefig figure image render fig1 img1 w2) as [[[]|e] w3]; simpl in *;
    [|apply H1; set_solver].
  pose proof (savefig_agree fig2 img2 w3 j) as H2.
  destruct (savefig figure image render fig2 img2 w3) as [[[]|e] w4]; simpl in *.
  - rewrite H2, H1; [done|set_solver..].
  - rewrite H2, H1; [done|set_solver..].
Qed.

End FiguresProps.

Section HandlesProps.

Variable defaultDimord : list string.
Variable filename : string.
Variable integers : Z -> Z -> nat -> list Z.
Variable write_fails : nat -> bool.

Lemma h5_open_close name mode (w : handles) :
  h5_close (h5_open name mode w).1 (h5_open name mode w).2 = w.
Proof.
  unfold h5_close, h5_open. simpl. rewrite delete_insert_eq.
  apply delete_id, not_elem_of_dom, is_fresh.
Qed.

(** The handles after a call: those from before, and with
    [inmemory = False], unless writing the data has failed, the one that
    is opened in mode "r+" for [out.data]. *)
Lemma generate_artificial_data_handles nTrials nChannels equidistant overlapping
    inmemory dimord (w : handles) :
  let run := generate_artificial_data defaultDimord filename integers write_fails
               nTrials nChannels equidistant overlapping inmemory dimord w in
  (run.2 = w /\ (inmemory = true \/ exists e, run.1 = Raise e))
  \/ (inmemory = false
      /\ run.2 = <[fresh (dom w) := (filename, "r+")]> w
      /\ forall out, run.1 = Ok out ->
           exists shape, data out = Dataset (fresh (dom w)) shape).
Proof.
  cbv zeta. unfold generate_artificial_data.
  destruct (mbind _ _) as [timeAxis|e]; [|left; split; eauto].
  destruct inmemory.
  { left. destruct (build_trialdefinition _ _ _ _); simpl; split; eauto. }
  pose proof (h5_open_close filename "w" w) as Hclose.
  destruct (h5_open filename "w" w) as [h5f w1]. simpl in Hclose. rewrite Hclose.
  destruct (for_range _ _ _) as [[]|e]; [|left; split; eauto].
  right. unfold h5_open.
  destruct (build_trialdefinition _ _ _ _); simpl; split; try done; split; try done.
  intros out [= <-]. simpl. eauto.
Qed.

End HandlesProps.

(** C4, as stated, fails: with [inmemory = False] the function returns
    while the HDF5 file that it has opened in mode "r+" for [out.data] is
    open. *)
Lemma generate_artificial_data_returns_open_handle :
  let run := generate_artificial_data sample_defaultDimord sample_filename
               sample_integers (fun _ => false) 2 2 true false false None ∅ in
  (exists out, run.1 = Ok out /\ data out = Dataset 1 [6000; 2])
  /\ run.2 = {[1%positive := (sample_filename, "r+")]}.
Proof. split; [eexists; split; reflexivity | reflexivity]. Qed.

(** C4, amended: [figs_equal] leaves the temporary files as it found them,
    on every path, so both of its files are removed.  Of the HDF5 handles
    of [generate_artificial_data] the one opened in mode "w" is closed on
    every path; with [inmemory = True] the open handles are those from
    before the call; with [inmemory = False] either writing has failed
    and the same holds, or the handle opened in mode "r+", which backs
    [out.data], is the one handle that is newly open, also when the
    function returns. *)
Theorem resources_released {figure image tolerance : Type}
    (render : figure -> result image) (array_equal : image -> image -> bool)
    (allclose : image -> image -> tolerance -> bool)
    (fig1 fig2 : figure) (tol : option tolerance) (files : gmap positive (option image))
    (defaultDimord : list string) (filename : string)
    (integers : Z -> Z -> nat -> list Z) (write_fails : nat -> bool)
    (nTrials nChannels : nat) (equidistant overlapping inmemory : bool)
    (dimord : option (list string)) (w : handles) :
  (figs_equal figure image tolerance render array_equal allclose fig1 fig2 tol files).2
  = files
  /\ let run := generate_artificial_data defaultDimord filename integers write_fails
                  nTrials nChannels equidistant overlapping inmemory dimord w in
     (forall h name, run.2 !! h = Some (name, "w") -> w !! h = Some (name, "w"))
     /\ (inmemory = true -> run.2 = w)
     /\ (inmemory = false ->
         (run.2 = w /\ exists e, run.1 = Raise e)
         \/ (w !! fresh (dom w) = None
             /\ run.2 = <[fresh (dom w) := (filename, "r+")]> w
             /\ forall out, run.1 = Ok out ->
                  exists shape, data out = Dataset (fresh (dom w)) shape)).
Proof.
  split; [apply figs_equal_tmpfiles|]. cbv zeta.
  destruct (generate_artificial_data_handles defaultDimord filename integers
              write_fails nTrials nChannels equidistant overlapping inmemory dimord w)
    as [[Hw Hcase]|(Hmem & Hw & Hout)]; cbv zeta in *.
  - rewrite Hw. split; [done|]. split; [done|].
    intros ->. left. split; [done|]. by destruct Hcase.
  - rewrite Hw. split; [|split].
    + intros h name Hh. destruct (decide (h = fresh (dom w))) as [->|Hne].
      * by rewrite lookup_insert_eq in Hh.
      * by rewrite lookup_insert_ne in Hh.
    + by rewrite Hmem.
    + intros _. right. split; [apply not_elem_of_dom, is_fresh|]. by split.
Qed.

Lemma resources_released_witness :
  let run := generate_artificial_data sample_defaultDimord sample_filename
               sample_integers (fun _ => false) 2 2 true false false None ∅ in
  false = false
  /\ ((run.2 = ∅ /\ exists e, run.1 = Raise e)
      \/ ((∅ : handles) !! fresh (dom (∅ : handles)) = None
          /\ run.2 = <[fresh (dom (∅ : handles)) := (sample_filename, "r+")]> ∅
          /\ forall out, run.1 = Ok out ->
               exists shape, data out = Dataset (fresh (dom (∅ : handles))) shape)).
Proof.
  split; [reflexivity|].
  apply (resources_released (figure := unit) (image := unit) (tolerance := unit)
           (fun _ => Ok tt) (fun _ _ => true) (fun _ _ _ => true) tt tt None ∅
           sample_defaultDimord sample_filename sample_integers (fun _ => false)
           2 2 true false false None ∅).
  reflexivity.
Defined.

End TestMiscProps.

(* ===================================================================== *)
(** * Further properties of conda2pip.py *)
(* ===================================================================== *)

Module Conda2pipMore.

Import Conda2pip Conda2pipProps PyFacts.

(** ** Strings *)

Lemma prefix_refl_app (a b : string) : String.prefix a (a +:+ b) = true.
Proof.
  induction a as [|c a IH]; [by destruct b|]. rewrite append_cons. simpl.
  by destruct (Ascii.ascii_dec c c).
Qed.

Lemma prefix_length (a s : string) :
  String.prefix a s = true -> (String.length a <= String.length s)%nat.
Proof.
  revert s. induction a as [|c a IH]; intros [|d s] H; simpl in *; try done; try lia.
  destruct (Ascii.ascii_dec c d); [|done]. apply IH in H. lia.
Qed.

Lemma startswith_app (p t : string) : startswith (p +:+ t) p = true.
Proof. apply prefix_refl_app. Qed.

(** Skipping the characters of a match. *)
Lemma replace_go_skip (a old new t : string) :
  replace_go (String.length a) old new (a +:+ t) = replace_go O old new t.
Proof.
  induction a as [|c a IH]; [done|]. rewrite append_cons. simpl. exact IH.
Qed.

(** Nothing is replaced in a string that does not hold [old]. *)
Lemma replace_go_absent (old new t : string) :
  contains t old = false -> replace_go O old new t = t.
Proof.
  induction t as [|c t IH]; [done|]. cbn [contains replace_go]. intros H.
  apply orb_false_iff in H as [Hp Hc]. rewrite Hp. by rewrite IH.
Qed.

(** A string that starts with [old] starts with [new] after the
    replacement, and what follows [old] is replaced in turn. *)
Lemma replace_prefix (c : ascii) (old' new t : string) :
  replace (String c old' +:+ t) (String c old') new
  = new +:+ replace t (String c old') new.
Proof.
  unfold replace. rewrite append_cons. cbn [replace_go].
  rewrite <- append_cons, prefix_refl_app.
  cbn [String.length].
  replace (S (String.length old') - 1)%nat with (String.length old') by lia.
  by rewrite replace_go_skip.
Qed.

(** ** The list comprehensions over the packages *)

Lemma mapM_startswith_str p (strs : list string) :
  mapM (node_startswith p) (NStr <$> strs) = Ok ((fun s => startswith s p) <$> strs).
Proof.
  induction strs as [|s strs IH]; [done|].
  rewrite !fmap_cons. cbn [mapM node_startswith]. simpl. by rewrite IH.
Qed.

(** [l.index(True)] is the place of the first [True]. *)
Lemma index_true_first (bs : list bool) :
  any bs = true ->
  bs !! index_true bs = Some true
  /\ forall j, (j < index_true bs)%nat -> bs !! j = Some false.
Proof.
  induction bs as [|[] bs IH]; simpl; [done| |].
  - intros _. split; [done|]. intros j Hj. lia.
  - intros H. destruct (IH H) as [H1 H2]. split; [done|].
    intros [|j] Hj; [done|]. simpl. apply H2. lia.
Qed.

Lemma any_false_all (bs : list bool) :
  any bs = false -> forall j b, bs !! j = Some b -> b = false.
Proof.
  induction bs as [|x bs IH]; simpl; [done|]. intros H.
  apply orb_false_iff in H as [Hx Hbs]. intros [|j] b; simpl.
  - intros [= <-]. exact Hx.
  - by apply IH.
Qed.

(** What the conversion loop does to a sequence of strings: nothing, when
    no package starts with "python-graphviz"; otherwise the first such
    package, and only that one, has the name replaced. *)
Lemma convert_pkgs_spec (l l' : list node) :
  convert_pkgs pkgConvert l = Ok l' ->
  exists strs : list string,
    l = NStr <$> strs
    /\ ((Forall (fun s => startswith s "python-graphviz" = false) strs /\ l' = l)
        \/ exists i s,
             strs !! i = Some s
             /\ startswith s "python-graphviz" = true
             /\ (forall j t, (j < i)%nat -> strs !! j = Some t ->
                   startswith t "python-graphviz" = false)
             /\ l' = <[i := NStr (replace s "python-graphviz" "graphviz")]> l).
Proof.
  intros H.
  destruct (all_str_fmap l) as [strs ->].
  { by apply (convert_pkgs_input pkgConvert _ l'). }
  exists strs. split; [done|].
  unfold pkgConvert in H. cbn [convert_pkgs] in H.
  rewrite mapM_startswith_str in H. simpl in H.
  set (bs := (fun s => startswith s "python-graphviz") <$> strs) in *.
  destruct (any bs) eqn:Hany.
  - right. destruct (index_true_first bs Hany) as [Hi Hbefore].
    set (i := index_true bs) in *.
    unfold bs in Hi. rewrite list_lookup_fmap in Hi.
    destruct (strs !! i) as [s|] eqn:Hs; [|done]. simpl in Hi.
    rewrite list_lookup_fmap, Hs in H. simpl in H.
    exists i, s. split; [done|]. split; [congruence|].
    split; [|by injection H as <-].
    intros j t Hj Ht. specialize (Hbefore j Hj).
    unfold bs in Hbefore. rewrite list_lookup_fmap, Ht in Hbefore.
    simpl in Hbefore. congruence.
  - left. split; [|congruence].
    apply Forall_lookup_2. intros j s Hs.
    apply (any_false_all bs Hany j). unfold bs. by rewrite list_lookup_fmap, Hs.
Qed.

Lemma process_comments_split y needed optional :
  _process_comments y = Ok (needed, optional) ->
  convert_pkgs pkgConvert (items y) = Ok (needed ++ optional)%list.
Proof.
  unfold _process_comments. intros H.
  destruct (convert_pkgs pkgConvert (items y)) as [seq|e]; [|done]. simpl in H.
  destruct (find_cutoff y (ca_items y) None) as [[c|]|e]; simpl in H; [| |done].
  - injection H as <- <-. by rewrite take_drop.
  - injection H as <- <-. by rewrite app_nil_r.
Qed.

(** X1: [_process_comments] hands back every package once and in order:
    [needed] followed by [optional] has as many entries as the sequence,
    and holds at each place the package of the sequence, the name
    replaced if it starts with "python-graphviz", untouched otherwise. *)
Theorem process_comments_keeps_packages y needed optional :
  _process_comments y = Ok (needed, optional) ->
  length (needed ++ optional)%list = length (items y)
  /\ forall j s, items y !! j = Some (NStr s) ->
       (needed ++ optional)%list !! j = Some (NStr s)
       \/ (startswith s "python-graphviz" = true
           /\ (needed ++ optional)%list !! j
              = Some (NStr (replace s "python-graphviz" "graphviz"))).
Proof.
  intros H. apply process_comments_split in H.
  destruct (convert_pkgs_spec _ _ H) as (strs & Hl & [[_ ->]|(i & s & Hs & Hst & _ & ->)]).
  - split; [done|]. intros j s Hj. by left.
  - split; [by rewrite length_insert|]. intros j t Hj.
    destruct (decide (i = j)) as [->|Hne].
    + right. pose proof (lookup_lt_Some _ _ _ Hj) as Hlt.
      rewrite Hl, list_lookup_fmap, Hs in Hj. injection Hj as ->.
      split; [done|]. by apply list_lookup_insert_eq.
    + left. by rewrite list_lookup_insert_ne.
Qed.

Lemma process_comments_keeps_packages_witness :
  length (items sample_plain ++ [])%list = length (items sample_plain)
  /\ forall j s, items sample_plain !! j = Some (NStr s) ->
       (items sample_plain ++ [])%list !! j = Some (NStr s)
       \/ (startswith s "python-graphviz" = true
           /\ (items sample_plain ++ [])%list !! j
              = Some (NStr (replace s "python-graphviz" "graphviz"))).
Proof. apply (process_comments_keeps_packages sample_plain). reflexivity. Defined.

(** X2: the first package whose text starts with "python-graphviz" comes
    back with "graphviz" in its place and the rest of its text replaced
    likewise, so as it was when the name does not occur in it again;
    every other entry, also a later one that starts with
    "python-graphviz", comes back as it was. *)
Theorem process_comments_renames_graphviz y needed optional (i : nat) (t : string) :
  _process_comments y = Ok (needed, optional) ->
  items y !! i = Some (NStr ("python-graphviz" +:+ t)) ->
  (forall j s, (j < i)%nat -> items y !! j = Some (NStr s) ->
     startswith s "python-graphviz" = false) ->
  (needed ++ optional)%list !! i
  = Some (NStr ("graphviz" +:+ replace t "python-graphviz" "graphviz"))
  /\ (contains t "python-graphviz" = false ->
      replace t "python-graphviz" "graphviz" = t)
  /\ forall j, j <> i -> (needed ++ optional)%list !! j = items y !! j.
Proof.
  intros H Hi Hfirst. apply process_comments_split in H.
  split; [|split].
  2:{ apply replace_go_absent. }
  all: destruct (convert_pkgs_spec _ _ H)
         as (strs & Hl & [[Hnone ->]|(k & s & Hs & Hst & Hbefore & ->)]).
  - exfalso. rewrite Hl, list_lookup_fmap in Hi.
    destruct (strs !! i) as [s|] eqn:Hs; [|done]. injection Hi as ->.
    pose proof (Forall_lookup_1 _ _ _ _ Hnone Hs) as Hf. cbv beta in Hf.
    by rewrite startswith_app in Hf.
  - assert (k = i) as ->.
    { destruct (Nat.lt_total k i) as [Hlt|[?|Hlt]]; [|done|].
      - exfalso. rewrite (Hfirst k s Hlt) in Hst; [done|].
        by rewrite Hl, list_lookup_fmap, Hs.
      - exfalso. rewrite Hl, list_lookup_fmap in Hi.
        destruct (strs !! i) as [s'|] eqn:Hs'; [|done]. injection Hi as ->.
        pose proof (Hbefore i _ Hlt Hs') as Hf.
        by rewrite startswith_app in Hf. }
    pose proof (lookup_lt_Some _ _ _ Hi) as Hlen.
    rewrite Hl, list_lookup_fmap, Hs in Hi. injection Hi as ->.
    rewrite list_lookup_insert_eq by done.
    by rewrite (replace_prefix "p" "ython-graphviz" "graphviz" t).
  - done.
  - intros j Hj.
    assert (k = i) as ->.
    { destruct (Nat.lt_total k i) as [Hlt|[?|Hlt]]; [|done|].
      - exfalso. rewrite (Hfirst k s Hlt) in Hst; [done|].
        by rewrite Hl, list_lookup_fmap, Hs.
      - exfalso. rewrite Hl, list_lookup_fmap in Hi.
        destruct (strs !! i) as [s'|] eqn:Hs'; [|done]. injection Hi as ->.
        pose proof (Hbefore i _ Hlt Hs') as Hf.
        by rewrite startswith_app in Hf. }
    by rewrite list_lookup_insert_ne.
Qed.

Lemma process_comments_renames_graphviz_witness :
  ((NStr <$> ["numpy >= 1.15"; "graphviz >= 0.8"; "python-graphviz"]) ++ [])%list !! 1%nat
  = Some (NStr ("graphviz" +:+ replace " >= 0.8" "python-graphviz" "graphviz"))
  /\ (contains " >= 0.8" "python-graphviz" = false ->
      replace " >= 0.8" "python-graphviz" "graphviz" = " >= 0.8")
  /\ forall j, j <> 1%nat ->
       ((NStr <$> ["numpy >= 1.15"; "graphviz >= 0.8"; "python-graphviz"]) ++ [])%list !! j = items sample_graphviz !! j.
Proof.
  apply (process_comments_renames_graphviz sample_graphviz _ [] 1 " >= 0.8").
  - reflexivity.
  - reflexivity.
  - intros [|j] s Hj; [|lia]. intros [= <-]. reflexivity.
Defined.

(** ** The cut between required and testing packages *)

(** A comment list none of whose first tokens carries a keyword. *)
Lemma scan_tokens_no_keyword y lineno (toks : list (option token)) cutoff :
  Forall (fun tok => has_keyword tok = false) toks ->
  scan_tokens y lineno toks cutoff = Ok cutoff.
Proof.
  induction 1 as [|tok toks Htok _ IH]; [done|].
  cbn [scan_tokens]. by rewrite Htok.
Qed.

Lemma find_cutoff_no_keyword y (ca : list (nat * list slot)) cutoff :
  Forall (fun e => exists toks, mapM slot_head e.2 = Ok toks
                     /\ Forall (fun tok => has_keyword tok = false) toks) ca ->
  find_cutoff y ca cutoff = Ok cutoff.
Proof.
  induction 1 as [|[lineno tokens] ca (toks & Htoks & Hno) _ IH]; [done|].
  cbn [find_cutoff]. simpl in Htoks. rewrite Htoks. simpl.
  by rewrite scan_tokens_no_keyword.
Qed.

Lemma find_cutoff_app y (ca1 ca2 : list (nat * list slot)) : forall cutoff,
  find_cutoff y (ca1 ++ ca2) cutoff
  = (c ← find_cutoff y ca1 cutoff; find_cutoff y ca2 c).
Proof.
  induction ca1 as [|[lineno tokens] ca1 IH]; intros cutoff; [done|].
  cbn [app find_cutoff].
  destruct (mapM slot_head tokens) as [toks|e]; [|done]. simpl.
  destruct (scan_tokens y lineno toks cutoff) as [c|e]; [|done]. simpl. apply IH.
Qed.

(** The first token with a keyword decides what a comment list gives. *)
Lemma scan_tokens_keyword y lineno (pre post : list (option token)) tok cutoff :
  Forall (fun tok => has_keyword tok = false) pre ->
  has_keyword tok = true ->
  scan_tokens y (S lineno) (pre ++ tok :: post) cutoff = Ok (Some (S lineno + 1)%nat).
Proof.
  induction 1 as [|tok' pre Htok' _ IH]; intros Htok.
  - cbn [app scan_tokens]. rewrite Htok. by destruct tok.
  - cbn [app scan_tokens]. rewrite Htok'. by apply IH.
Qed.

(** X3: without a comment that carries one of the keywords "test",
    "optional" and "development", every package is required and none is
    a testing package. *)
Theorem no_keyword_all_required y :
  all_str (items y) ->
  Forall (fun e => exists toks, mapM slot_head e.2 = Ok toks
                     /\ Forall (fun tok => has_keyword tok = false) toks)
         (ca_items y) ->
  exists seq,
    _process_comments y = Ok (seq, [])
    /\ convert_pkgs pkgConvert (items y) = Ok seq
    /\ length seq = length (items y).
Proof.
  intros Hstr Hca.
  destruct (convert_pkgs_total pkgConvert _ Hstr) as [seq Hseq].
  exists seq. unfold _process_comments. rewrite Hseq. simpl.
  rewrite find_cutoff_no_keyword by done. simpl. split; [done|]. split; [done|].
  destruct (convert_pkgs_spec _ _ Hseq) as (strs & Hl & [[_ ->]|(i & s & _ & _ & _ & ->)]);
    [done|]. by rewrite length_insert.
Qed.

Lemma no_keyword_all_required_witness :
  exists seq,
    _process_comments sample_plain = Ok (seq, [])
    /\ convert_pkgs pkgConvert (items sample_plain) = Ok seq
    /\ length seq = length (items sample_plain).
Proof.
  apply (no_keyword_all_required sample_plain).
  - unfold all_str. simpl. repeat constructor.
  - simpl. constructor.
Defined.

(** X4: the last comment with a keyword decides the cut.  When it is
    attached to item [lineno] of the sequence, with [lineno >= 1],
    the packages up to and including item [lineno] are required and the
    later ones are testing packages, whatever the comments before it
    say. *)
Theorem last_keyword_comment_decides y (ca1 ca2 : list (nat * list slot))
    (lineno : nat) (tokens : list slot) (pre post : list (option token)) tok c1 :
  all_str (items y) ->
  ca_items y = (ca1 ++ (S lineno, tokens) :: ca2)%list ->
  find_cutoff y ca1 None = Ok c1 ->
  mapM slot_head tokens = Ok (pre ++ tok :: post)%list ->
  Forall (fun tok => has_keyword tok = false) pre ->
  has_keyword tok = true ->
  Forall (fun e => exists toks, mapM slot_head e.2 = Ok toks
                     /\ Forall (fun tok => has_keyword tok = false) toks) ca2 ->
  exists seq,
    convert_pkgs pkgConvert (items y) = Ok seq
    /\ length seq = length (items y)
    /\ _process_comments y = Ok (take (S lineno + 1) seq, drop (S lineno + 1) seq).
Proof.
  intros Hstr Hca H1 Htoks Hpre Htok H2.
  destruct (convert_pkgs_total pkgConvert _ Hstr) as [seq Hseq].
  exists seq. split; [done|]. split.
  { destruct (convert_pkgs_spec _ _ Hseq)
      as (strs & Hl & [[_ ->]|(i & s & _ & _ & _ & ->)]); [done|].
    by rewrite length_insert. }
  unfold _process_comments. rewrite Hseq, Hca. simpl.
  rewrite find_cutoff_app, H1. simpl.
  rewrite Htoks. simpl.
  rewrite (scan_tokens_keyword y lineno pre post tok c1 Hpre Htok). simpl.
  by rewrite find_cutoff_no_keyword.
Qed.

Lemma last_keyword_comment_decides_witness :
  exists seq,
    convert_pkgs pkgConvert (items sample_two_comments) = Ok seq
    /\ length seq = length (items sample_two_comments)
    /\ _process_comments sample_two_comments = Ok (take (2 + 1) seq, drop (2 + 1) seq).
Proof.
  apply (last_keyword_comment_decides sample_two_comments
           [(1%nat, [SlotTok (comment "# optional" 3); SlotNone])] []
           1 [SlotList [comment "# testing" 5]; SlotNone]
           [] [None] (Some (comment "# testing" 5)) (Some 2%nat)).
  - unfold all_str. simpl. repeat constructor.
  - reflexivity.
  - reflexivity.
  - reflexivity.
  - constructor.
  - reflexivity.
  - constructor.
Defined.

(** ** Taking Python out of the required packages *)

Lemma delete_first (bs : list bool) (l : list string) :
  bs = (fun s => startswith s "python") <$> l ->
  any bs = true ->
  exists pre p post,
    l = (pre ++ p :: post)%list
    /\ Forall (fun s => startswith s "python" = false) pre
    /\ startswith p "python" = true
    /\ delete (index_true bs) l = (pre ++ post)%list.
Proof.
  intros -> Hany.
  destruct (index_true_first _ Hany) as [Hi Hbefore].
  set (i := index_true _) in *.
  rewrite list_lookup_fmap in Hi.
  destruct (l !! i) as [p|] eqn:Hp; [|done]. injection Hi as Hi.
  exists (take i l), p, (drop (S i) l). split; [|split; [|split]].
  - by rewrite take_drop_middle.
  - apply Forall_lookup_2. intros j s Hs.
    apply lookup_take_Some in Hs as [Hs Hj].
    specialize (Hbefore j Hj). rewrite list_lookup_fmap, Hs in Hbefore.
    simpl in Hbefore. congruence.
  - done.
  - apply delete_take_drop.
Qed.

Section Collect.

Variable pop_ca : nat -> list (nat * list slot) -> list (nat * list slot).

(** X5: for an environment without a "pip" section, the required packages
    are those of [_process_comments] without the first one whose text
    starts with "python"; a later one that starts with "python" stays,
    and the testing packages are not looked at. *)
Theorem collect_removes_first_python deps (needed : list string) optional :
  _process_comments deps = Ok (NStr <$> needed, optional) ->
  (Forall (fun s => startswith s "python" = false) needed
   /\ collect pop_ca deps = Ok (NStr <$> needed, optional))
  \/ exists pre p post,
       needed = (pre ++ p :: post)%list
       /\ Forall (fun s => startswith s "python" = false) pre
       /\ startswith p "python" = true
       /\ collect pop_ca deps = Ok (NStr <$> (pre ++ post)%list, optional).
Proof.
  intros H.
  assert (all_str (items deps)) as Hstr.
  { unfold _process_comments in H.
    destruct (convert_pkgs pkgConvert (items deps)) as [seq|e] eqn:Hseq; [|done].
    by apply (convert_pkgs_input pkgConvert _ seq). }
  unfold collect. rewrite find_pipIndex_str by done. simpl.
  rewrite H. simpl. rewrite mapM_startswith_str. simpl.
  destruct (any _) eqn:Hany.
  - right. destruct (delete_first _ needed eq_refl Hany)
      as (pre & p & post & Hl & Hpre & Hp & Hdel).
    exists pre, p, post. split; [done|]. split; [done|]. split; [done|].
    by rewrite <- Hdel, <- list_fmap_delete.
  - left. split; [|done]. apply Forall_lookup_2. intros j s Hs.
    apply (any_false_all _ Hany j). by rewrite list_lookup_fmap, Hs.
Qed.

(** X6: running [conda2pip] again, on the files that a run has left and
    with the same time stamp, changes nothing: the files are written
    anew with the same text. *)
Theorem conda2pip_rerun deps rl script stamp (fs : gmap string string) :
  conda2pip pop_ca deps rl script stamp (conda2pip pop_ca deps rl script stamp fs).2
  = conda2pip pop_ca deps rl script stamp fs.
Proof.
  destruct (collect_cases pop_ca deps) as [[e He]|(required & testing & Hc)].
  - by rewrite !(conda2pip_raise _ _ _ _ _ _ e He).
  - rewrite !(conda2pip_run _ _ _ _ _ _ _ _ Hc). simpl. f_equal.
    destruct testing as [|t testing].
    + by rewrite insert_insert_eq.
    + rewrite (insert_insert_ne _ "requirements-test.txt" "requirements.txt") by done.
      rewrite !insert_insert_eq.
      rewrite (insert_insert_ne _ "requirements.txt" "requirements-test.txt") by done.
      by rewrite insert_insert_eq.
Qed.

End Collect.

Lemma collect_removes_first_python_witness :
  (Forall (fun s => startswith s "python" = false)
     ["numpy >= 1.15"; "scipy >= 1.5, < 1.6"; "python >= 3.8"]
   /\ collect ruamel_pop_ca sample_plain
      = Ok (NStr <$> ["numpy >= 1.15"; "scipy >= 1.5, < 1.6"; "python >= 3.8"], []))
  \/ exists pre p post,
       ["numpy >= 1.15"; "scipy >= 1.5, < 1.6"; "python >= 3.8"]
       = (pre ++ p :: post)%list
       /\ Forall (fun s => startswith s "python" = false) pre
       /\ startswith p "python" = true
       /\ collect ruamel_pop_ca sample_plain = Ok (NStr <$> (pre ++ post)%list, []).
Proof.
  apply (collect_removes_first_python ruamel_pop_ca sample_plain
           ["numpy >= 1.15"; "scipy >= 1.5, < 1.6"; "python >= 3.8"] []).
  reflexivity.
Defined.

End Conda2pipMore.

(* ===================================================================== *)
(** * Further properties of syncopy/utils/parsers.py *)
(* ===================================================================== *)

Module ParsersMore.

Import Parsers ParsersProps.

(** ** Comparisons and rounding *)







(** ** Running the parsers stage by stage *)

Section WithLibraries.

Variable py_str : scalar -> string.
Variable str_dtype : dtype -> string.
Variable str_shape : list nat -> string.
Variable str_dims : list (option Z) -> string.
Variable builtins_getattr : string -> result pytype.
Variable issubdtype_name : dtype -> string -> result bool.


(** The outcome of [array_parser] on a list or an array is that of its
    five checks in turn; the bounds are checked in the store that holds
    the copy [arr]. *)
Lemma array_parser_stages l o varname ntype hasinf hasnan lims dims (h : heap) :
  h !! l = Some o ->
  (array_parser py_str str_dtype str_shape str_dims issubdtype_name
     (Ref l) varname ntype hasinf hasnan lims dims h).1
  = (check_ntype str_dtype issubdtype_name (np_array py_str o) varname
       (effective_ntype ntype lims);;
     check_hasinf py_str (np_array py_str o) varname hasinf;;
     check_hasnan py_str (np_array py_str o) varname hasnan;;
     (check_lims py_str (np_array py_str o) varname lims
        (<[fresh (dom h) := ONdarray (np_array py_str o)]> h)).1;;
     check_dims py_str str_shape str_dims (np_array py_str o) varname dims;;
     Ok (Val SNone)).
Proof.
  intros Hl. unfold array_parser, mbind at 1, M_bind at 1, deref. rewrite Hl.
  set (arr := np_array py_str o). unfold mbind, M_bind, alloc, lift. simpl.
  destruct (check_ntype _ _ _ _ _) as [[]|e]; [|done]. simpl.
  destruct (check_hasinf _ _ _ _) as [[]|e]; [|done]. simpl.
  destruct (check_hasnan _ _ _ _) as [[]|e]; [|done]. simpl.
  destruct (check_lims _ _ _ _ _) as [[[]|e] h']; [|done]. simpl.
  by destruct (check_dims _ _ _ _ _ _) as [[]|e].
Qed.

(** ** Bounds of a scalar *)




(** ** Bounds of an array *)



End WithLibraries.





Section Bounds.

Variable py_str : scalar -> string.
Variable str_dtype : dtype -> string.
Variable str_shape : list nat -> string.
Variable str_dims : list (option Z) -> string.
Variable issubdtype_name : dtype -> string -> result bool.



(** X12: bounds can only be checked on numbers.  With [lims] given and no
    [ntype], [array_parser] turns down every list or array that is not
    of a numeric dtype (strings, bools, objects) with [SPYValueError],
    whatever else is asked for. *)
Theorem array_parser_bounds_need_numbers l o varname hasinf hasnan lims dims (h : heap) :
  h !! l = Some o ->
  is_numeric (arr_dtype (np_array py_str o)) = false ->
  (array_parser py_str str_dtype str_shape str_dims issubdtype_name
     (Ref l) varname None hasinf hasnan (Some lims) dims h).1
  = Raise (SPYValueError "dtype = numeric" varname
             (Some ("dtype = " +:+ str_dtype (arr_dtype (np_array py_str o))))).
Proof.
  intros Hl Hnum.
  rewrite (array_parser_stages py_str str_dtype str_shape str_dims issubdtype_name
             l o _ _ _ _ _ _ h Hl).
  unfold effective_ntype, check_ntype. rewrite decide_True by (by left).
  by rewrite Hnum.
Qed.


(** ** The layout of an array *)

Lemma check_shape_spec arr varname all_dims (dims : list (option Z)) :
  forall ashape : list Z,
  length dims = length ashape ->
  check_shape str_shape str_dims arr varname all_dims dims ashape = Ok tt
  <-> Forall2 (fun dim n => forall d, dim = Some d -> n = d) dims ashape.
Proof.
  induction dims as [|dim dims IH]; intros [|n ashape] Hlen;
    [split; [constructor|done] | done | done | ].
  cbn [check_shape]. injection Hlen as Hlen. rewrite Forall2_cons.
  destruct dim as [d|].
  - case_decide as Hd.
    + rewrite (IH _ Hlen). split; [|by intros [_ ?]].
      intros H. split; [|done]. by intros ? [= <-].
    + split; [done|]. intros [H _]. by specialize (H d eq_refl).
  - rewrite (IH _ Hlen). split; [|by intros [_ ?]]. by intros H.
Qed.

(** X14: a [dims] tuple with two or more entries is compared with the
    shape of the array entry by entry: with nothing else asked for,
    [array_parser] returns exactly when the array has as many dimensions
    as the tuple has entries and every entry that is not [None] equals
    the size of its dimension. *)
Theorem array_parser_dims_tuple l o varname (dims : list (option Z)) (h : heap) :
  h !! l = Some o ->
  (2 <= length dims)%nat ->
  (array_parser py_str str_dtype str_shape str_dims issubdtype_name
     (Ref l) varname None None None None (Some (DimsTuple dims)) h).1 = Ok (Val SNone)
  <-> Forall2 (fun dim n => forall d, dim = Some d -> Z.of_nat n = d)
        dims (arr_shape (np_array py_str o)).
Proof.
  intros Hl Hlen.
  rewrite (array_parser_stages py_str str_dtype str_shape str_dims issubdtype_name
             l o _ _ _ _ _ _ h Hl).
  set (arr := np_array py_str o) in *.
  cbn [effective_ntype check_ntype check_hasinf check_hasnan check_lims].
  unfold mbind at 1 2 3 4. cbn [result_bind mret M_ret fst].
  unfold check_dims.
  destruct (Nat.ltb_spec 1 (length dims)) as [_|]; [|lia].
  assert (Forall2 (fun dim n => forall d, dim = Some d -> Z.of_nat n = d)
            dims (arr_shape arr)
          <-> Forall2 (fun dim n => forall d, dim = Some d -> n = d)
                dims (Z.of_nat <$> arr_shape arr)) as -> by (by rewrite Forall2_fmap_r).
  case_decide as Hd.
  - rewrite <- (check_shape_spec arr varname dims dims _ Hd).
    by destruct (check_shape _ _ _ _ _ _ _) as [[]|e].
  - simpl. split; [done|]. intros H. by apply Forall2_length in H.
Qed.

(** X15: a [dims] tuple with one entry is compared with the shape of the
    squeezed array.  For an array that does not hold strings, with
    nothing else asked for, [array_parser] accepts [dims = (d,)] exactly
    when one dimension of size [d] is left once the dimensions of size 1
    are dropped, or none is left and [d] is 0.  So [dims = (1,)] is never
    accepted, not even for an array of shape [(1,)]. *)
Theorem array_parser_dims_single l o varname (d : Z) (h : heap) :
  h !! l = Some o ->
  arr_dtype (np_array py_str o) <> DStr ->
  let run := (array_parser py_str str_dtype str_shape str_dims issubdtype_name
                (Ref l) varname None None None None (Some (DimsTuple [Some d])) h).1 in
  (run = Ok (Val SNone)
   <-> Z.of_nat <$> squeeze (arr_shape (np_array py_str o)) = [d]
       \/ (squeeze (arr_shape (np_array py_str o)) = [] /\ d = 0))
  /\ (d = 1 -> exists legal actual, run = Raise (SPYValueError legal varname actual)).
Proof.
  intros Hl Hdt run.
  assert (run = (check_dims py_str str_shape str_dims (np_array py_str o) varname
                   (Some (DimsTuple [Some d]));; Ok (Val SNone))) as ->.
  { unfold run.
    by rewrite (array_parser_stages py_str str_dtype str_shape str_dims issubdtype_name
                  l o _ _ _ _ _ _ h Hl). }
  set (arr := np_array py_str o) in *.
  unfold check_dims. cbv zeta.
  rewrite (decide_False (P := arr_dtype arr = DStr)) by done.
  cbn [length Nat.ltb Nat.leb].
  assert (Forall (fun n => n <> 1%nat) (squeeze (arr_shape arr))) as Hsq.
  { unfold squeeze. apply Forall_forall. intros n Hn.
    by apply list_elem_of_filter in Hn as [? _]. }
  revert Hsq. generalize (squeeze (arr_shape arr)). intros sq Hsq.
  assert (tuple_max [0] (Z.of_nat <$> sq)
          = match sq with [] => [0] | _ => Z.of_nat <$> sq end) as ->.
  { destruct sq as [|[|k] sq']; [done| |done]. by destruct sq'. }
  destruct sq as [|n [|m sq']].
  - (* nothing is left: the shape compared is (0,) *)
    cbn [length]. rewrite decide_True by done.
    cbn [check_shape]. case_decide as Hd; simpl.
    + split; [|intros ->; done]. split; [|done]. intros _. right. by split.
    + split.
      * split; [done|]. intros [[=]|[_ ->]]. done.
      * intros _. eauto.
  - (* one dimension is left *)
    inversion Hsq as [|? ? Hn _]; subst.
    cbn [fmap list_fmap length]. rewrite decide_True by done.
    cbn [check_shape]. case_decide as Hd; simpl.
    + split.
      * split; [|done]. intros _. left. by rewrite Hd.
      * intros ->. lia.
    + split.
      * split; [done|]. intros [[= ?]|[[=] _]]. done.
      * intros _. eauto.
  - (* two or more are left *)
    cbn [fmap list_fmap length]. rewrite decide_False by done.
    simpl. split.
    + split; [done|]. intros [[=]|[[=] _]].
    + intros _. eauto.
Qed.

End Bounds.

(** ** [data_parser] *)

(** X16: what [data_parser] accepts.  The call returns exactly when a class
    of the object's [__mro__] reads as "...BaseData...", the class name
    occurs in [str(dataclass)] if a data class is asked for, [data.data]
    is there or not as [empty] asks, the mode is "r" exactly when
    [writable] is [False], and the dimensions asked for are among those
    of the object unless the object has none. *)
Lemma bind_unit_ok {B} (r : result unit) (k : result B) (v : B) :
  (r;; k) = Ok v <-> r = Ok tt /\ k = Ok v.
Proof.
  destruct r as [[]|e]; simpl; (split; [|by intros [? ?]]); [by split|done].
Qed.

Lemma and_iff (A A' B B' : Prop) : (A <-> A') -> (B <-> B') -> (A /\ B <-> A' /\ B').
Proof. tauto. Qed.

Theorem data_parser_accepts data o varname dataclass writable empty dimord :
  data_parser data o varname dataclass writable empty dimord = Ok (Val SNone)
  <-> Exists (fun base => contains base "BaseData" = true) (obj_mro o)
      /\ (forall dc, dataclass = Some dc -> contains dc (obj_classname o) = true)
      /\ (forall b, empty = Some b -> obj_has_data o = negb b)
      /\ (forall b, writable = Some b -> (obj_mode o = "r" <-> b = false))
      /\ (forall dims, dimord = Some dims -> obj_dimord o <> [] ->
            Forall (fun dim => dim ∈ obj_dimord o) dims).
Proof.
  unfold data_parser. rewrite !bind_unit_ok.
  assert (any ((fun base => contains base "BaseData") <$> obj_mro o) = true
          <-> Exists (fun base => contains base "BaseData" = true) (obj_mro o)) as Hmro.
  { unfold any. induction (obj_mro o) as [|base mro IH]; simpl.
    - split; [done|]. by intros ?%Exists_nil.
    - rewrite orb_true_iff, Exists_cons, IH. done. }
  rewrite <- Hmro. clear Hmro.
  assert (forall dims,
            forallb (fun dim => bool_decide (dim ∈ obj_dimord o)) dims = true
            <-> Forall (fun dim => dim ∈ obj_dimord o) dims) as Hdims.
  { intros dims. rewrite forallb_forall, Forall_forall.
    split; intros H dim Hin.
    - apply list_elem_of_In, H in Hin. by apply bool_decide_eq_true in Hin.
    - apply bool_decide_eq_true, H. by apply list_elem_of_In. }
  repeat apply and_iff.
  - by destruct (any _).
  - destruct dataclass as [dc|]; [|by split].
    destruct (contains dc (obj_classname o)) eqn:E.
    + split; [|done]. by intros _ ? [= <-].
    + split; [done|]. intros H. specialize (H dc eq_refl). congruence.
  - destruct empty as [[]|], (obj_has_data o); (split; intros H); try done;
      try (by intros ? [= <-]); try (by specialize (H _ eq_refl));
      try (by intros ? [=]).
  - destruct writable as [[]|]; [| |split; [by intros _ ? [=]|done]];
      case_decide as Hmode; (split; intros H); try done.
    + specialize (H _ eq_refl). by apply H in Hmode.
    + intros ? [= <-]. split; [done|]. by intros [=].
    + by intros ? [= <-].
    + specialize (H _ eq_refl). exfalso. by apply Hmode, H.
  - destruct dimord as [dims|]; [|split; [by intros _ ? [=]|done]].
    destruct (obj_dimord o) as [|d0 ds] eqn:Hdo; simpl.
    { split; [|done]. by intros _ ? _ ?. }
    rewrite <- Hdo in *.
    destruct (forallb _ dims) eqn:Hall.
    + split; [|done]. intros _ ? [= <-] _. by apply Hdims.
    + split; [by intros [? _]|]. intros H. exfalso.
      apply not_true_iff_false in Hall. apply Hall, Hdims, (H dims eq_refl).
      by rewrite Hdo.
Qed.

(** ** [io_parser] *)

(** The text in front of the first occurrence of [sep], then [sep], is
    how a string that holds [sep] starts. *)
Lemma before_prefix (s sep : string) :
  contains s sep = true -> String.prefix (before s sep +:+ sep) s = true.
Proof.
  induction s as [|c s IH]; cbn [contains before]; intros H.
  - rewrite orb_false_r in H. by rewrite PyFacts.append_nil.
  - destruct (String.prefix sep (String c s)) eqn:E.
    + by rewrite PyFacts.append_nil.
    + simpl in H. rewrite PyFacts.append_cons. cbn [String.prefix].
      destruct (Ascii.ascii_dec c c); [|done]. by apply IH.
Qed.

Section Io.

Variable expanduser : string -> string.
Variable abspath : string -> string.
Variable basename : string -> string.
Variable splitext : string -> string * string.
Variable path_exists : string -> bool.
Variable path_isdir : string -> bool.
Variable path_isfile : string -> bool.
Variable repr_str : string -> string.

(** X17: what a path that [io_parser] returns has been checked for.  A
    directory is returned only for [isfile = False], a file only for
    [isfile = True]; the location is a string, the path is its absolute
    form, and at that path something exists exactly when [exists] is
    [True], and is a directory (a file) exactly when [exists] is [True].
    A file name that is returned with extensions asked for has an
    extension that is not empty and occurs in [str(ext)], and the path
    returned with it is the text in front of the first occurrence of the
    name in the absolute path. *)
Theorem io_parser_returns_checked fs_loc varname isfile ext exists_ v :
  (io_parser expanduser abspath basename splitext path_exists path_isdir path_isfile
     repr_str fs_loc varname isfile ext exists_).1 = Ok v ->
  match v with
  | IoNone => isfile = false /\ (0 < ext_len ext)%nat
  | IoDir fs_path =>
      exists s, fs_loc = Val (SStr s) /\ fs_path = abspath (expanduser s)
        /\ isfile = false /\ ext_len ext = 0%nat
        /\ path_exists fs_path = exists_ /\ path_isdir fs_path = exists_
  | IoFile fs_path fs_name =>
      exists s, fs_loc = Val (SStr s) /\ isfile = true
        /\ fs_name = basename (abspath (expanduser s))
        /\ split_head (abspath (expanduser s)) fs_name = Ok fs_path
        /\ path_exists (abspath (expanduser s)) = exists_
        /\ path_isfile (abspath (expanduser s)) = exists_
        /\ ((0 < ext_len ext)%nat ->
            replace (splitext fs_name).2 "." "" <> ""
            /\ contains (ext_str repr_str ext)
                 (replace (splitext fs_name).2 "." "") = true)
  end.
Proof.
  unfold io_parser.
  destruct (Nat.ltb_spec 0 (ext_len ext)) as [Hext|Hext].
  - destruct isfile; simpl.
    2:{ intros [= <-]. done. }
    destruct fs_loc as [[| | | | |s]|]; try done. simpl.
    set (p := abspath (expanduser s)).
    destruct exists_, (path_exists p) eqn:Hex; simpl; try done.
    + destruct (contains _ _) eqn:Hc; simpl; [|done].
      destruct (String.length _ =? 0)%nat eqn:Hlen; simpl; [done|].
      destruct (path_isfile p) eqn:Hf; simpl; [|done].
      destruct (split_head p (basename p)) as [d|e] eqn:Hsp; simpl; [|done].
      intros [= <-]. exists s. repeat split; try done.
      intros Heq. rewrite Heq in Hlen. done.
    + destruct (contains _ _) eqn:Hc; simpl; [|done].
      destruct (String.length _ =? 0)%nat eqn:Hlen; simpl; [done|].
      destruct (path_isfile p) eqn:Hf; simpl; [done|].
      destruct (split_head p (basename p)) as [d|e] eqn:Hsp; simpl; [|done].
      intros [= <-]. exists s. repeat split; try done.
      intros Heq. rewrite Heq in Hlen. done.
  - rewrite andb_false_r. simpl.
    destruct fs_loc as [[| | | | |s]|]; try done. simpl.
    set (p := abspath (expanduser s)).
    destruct exists_, (path_exists p) eqn:Hex; simpl; try done.
    + destruct isfile; simpl.
      * destruct (path_isfile p) eqn:Hf; simpl; [|done].
        destruct (split_head p (basename p)) as [d|e] eqn:Hsp; simpl; [|done].
        intros [= <-]. exists s. repeat split; try done; lia.
      * destruct (path_isdir p) eqn:Hd; simpl; [|done].
        intros [= <-]. exists s. repeat split; try done; lia.
    + destruct isfile; simpl.
      * destruct (path_isfile p) eqn:Hf; simpl; [done|].
        destruct (split_head p (basename p)) as [d|e] eqn:Hsp; simpl; [|done].
        intros [= <-]. exists s. repeat split; try done; lia.
      * destruct (path_isdir p) eqn:Hd; simpl; [done|].
        intros [= <-]. exists s. repeat split; try done; lia.
Qed.

(** X18: path and name of a file that [io_parser] returns fit together:
    when the name that [os.path.basename] gives occurs in the absolute
    path, the returned path followed by the returned name is how the
    absolute path starts. *)
Theorem io_parser_path_and_name s varname ext exists_ fs_path fs_name :
  (io_parser expanduser abspath basename splitext path_exists path_isdir path_isfile
     repr_str (Val (SStr s)) varname true ext exists_).1 = Ok (IoFile fs_path fs_name) ->
  contains (abspath (expanduser s)) (basename (abspath (expanduser s))) = true ->
  String.prefix (fs_path +:+ fs_name) (abspath (expanduser s)) = true.
Proof.
  intros Hrun Hin.
  assert (fs_name = basename (abspath (expanduser s))
          /\ split_head (abspath (expanduser s)) fs_name = Ok fs_path) as [-> Hsp].
  { revert Hrun. unfold io_parser. simpl.
    repeat (match goal with
            | |- context [if ?c then _ else _] => destruct c
            | |- context [match ?c with Ok _ => _ | Raise _ => _ end] => destruct c eqn:?
            end; simpl; try done);
      intros H; destruct (split_head _ _) eqn:E; simpl in H; simplify_eq; done. }
  unfold split_head in Hsp.
  destruct (basename (abspath (expanduser s))) as [|c name] eqn:Hname; [done|].
  injection Hsp as <-. by apply before_prefix.
Qed.

End Io.

(** ** [json_parser] *)

Section Json.

Context {cls : Type}.
Variable isinstance : pyval -> cls -> bool.
Variable str_cls : cls -> string.

Lemma json_check_types_ok (json_dct : gmap string pyval) (wanted_dct : list (string * cls)) :
  json_check_types cls isinstance str_cls json_dct wanted_dct = Ok tt
  <-> Forall (fun kv => exists v, json_dct !! kv.1 = Some v /\ isinstance v kv.2 = true)
        wanted_dct.
Proof.
  induction wanted_dct as [|[key tp] wanted IH]; cbn [json_check_types].
  - split; [constructor|done].
  - rewrite Forall_cons. simpl. destruct (json_dct !! key) as [v|] eqn:Hv.
    + destruct (isinstance v tp) eqn:Hi.
      * rewrite IH. split; [|by intros [_ ?]]. intros H. split; [eauto|done].
      * split; [done|]. intros [(v' & [= <-] & Hv') _]. congruence.
    + split; [done|]. by intros [(v' & [=] & _) _].
Qed.

(** X19: what [json_parser] accepts, and which error comes first.  The call
    returns exactly when every wanted field is in the dictionary with a
    value of the wanted class.  If a wanted field is missing, the outcome
    is the [SPYValueError] that lists all wanted fields, also when a
    field that comes earlier has a value of the wrong class; otherwise a
    value of the wrong class gives [SPYTypeError]. *)
Theorem json_parser_outcomes (json_dct : gmap string pyval)
    (wanted_dct : list (string * cls)) :
  let run := json_parser cls isinstance str_cls json_dct wanted_dct in
  (run = Ok (Val SNone)
   <-> Forall (fun kv => exists v, json_dct !! kv.1 = Some v /\ isinstance v kv.2 = true)
         wanted_dct)
  /\ (Exists (fun kv => json_dct !! kv.1 = None) wanted_dct
      <-> run = Raise (SPYValueError
                         ("mandatory fields "
                          +:+ drop_last2 (join "" ((fun kv => kv.1 +:+ ", ") <$> wanted_dct)))
                         "JSON" None))
  /\ (Forall (fun kv => is_Some (json_dct !! kv.1)) wanted_dct ->
      run = Ok (Val SNone)
      \/ exists key tp v,
           (key, tp) ∈ wanted_dct /\ json_dct !! key = Some v
           /\ isinstance v tp = false
           /\ run = Raise (SPYTypeError v ("JSON: " +:+ key) (str_cls tp))).
Proof.
  cbv zeta. unfold json_parser.
  assert (forallb (fun kv : string * cls => bool_decide (is_Some (json_dct !! kv.1)))
            wanted_dct = true
          <-> Forall (fun kv => is_Some (json_dct !! kv.1)) wanted_dct) as Hkeys.
  { rewrite forallb_forall, Forall_forall. split; intros H kv Hin.
    - apply list_elem_of_In, H in Hin. by apply bool_decide_eq_true in Hin.
    - apply bool_decide_eq_true, H. by apply list_elem_of_In. }
  assert (Forall (fun kv => is_Some (json_dct !! kv.1)) wanted_dct
          <-> ~ Exists (fun kv => json_dct !! kv.1 = None) wanted_dct) as Hmiss.
  { rewrite <- Forall_Exists_neg. apply Forall_iff. intros kv.
    rewrite <- not_eq_None_Some. done. }
  destruct (forallb _ wanted_dct) eqn:Hall.
  - pose proof (proj1 Hkeys eq_refl) as Hk.
    assert ((json_check_types cls isinstance str_cls json_dct wanted_dct;;
             Ok (Val SNone)) = Ok (Val SNone)
            \/ exists key tp v,
                 (key, tp) ∈ wanted_dct /\ json_dct !! key = Some v
                 /\ isinstance v tp = false
                 /\ (json_check_types cls isinstance str_cls json_dct wanted_dct;;
                     Ok (Val SNone))
                    = Raise (SPYTypeError v ("JSON: " +:+ key) (str_cls tp))) as Htype.
    { clear Hall Hkeys Hmiss.
      induction wanted_dct as [|[key tp] wanted IH]; [by left|].
      inversion Hk as [|? ? [v Hv] Hk']; subst. simpl in Hv.
      cbn [json_check_types]. rewrite Hv.
      destruct (isinstance v tp) eqn:Hi.
      * destruct (IH Hk') as [Hok|(key' & tp' & v' & Hin & Hv' & Hi' & Hr)]; [by left|].
        right. exists key', tp', v'. split; [by right|]. done.
      * right. exists key, tp, v. simpl. split; [by left|]. done. }
    split; [|split].
    + rewrite <- json_check_types_ok.
      by destruct (json_check_types _ _ _ _ _) as [[]|e].
    + split.
      * intros Hex. by apply Hmiss in Hk.
      * intros Hr. destruct Htype as [Hok|(? & ? & ? & _ & _ & _ & Hty)]; congruence.
    + by intros _.
  - assert (~ Forall (fun kv => is_Some (json_dct !! kv.1)) wanted_dct) as Hnk.
    { intros HF. by apply Hkeys in HF. }
    split; [|split].
    + split; [done|]. intros H. exfalso. apply Hnk.
      eapply Forall_impl; [exact H|]. by intros kv (v & -> & _).
    + split; [done|]. intros _.
      destruct (decide (Exists (fun kv => json_dct !! kv.1 = None) wanted_dct))
        as [?|Hno]; [done|].
      exfalso. by apply Hnk, Hmiss.
    + intros Hk. by exfalso.
Qed.

End Json.

(** ** Sample calls of the statements above *)






Lemma array_parser_bounds_need_numbers_witness :
  (array_parser sample_str sample_str_dtype sample_str_shape sample_str_dims
     sample_issubdtype (Ref 2) "flags" None None None (Some (Ref 1)) None
     {[1%positive := OList [SInt 0; SInt 1]; 2%positive := OList [SBool true; SBool false]]}).1
  = Raise (SPYValueError "dtype = numeric" "flags"
             (Some ("dtype = "
                    +:+ sample_str_dtype
                          (arr_dtype (np_array sample_str
                                        (OList [SBool true; SBool false])))))).
Proof.
  apply (array_parser_bounds_need_numbers sample_str sample_str_dtype sample_str_shape
           sample_str_dims sample_issubdtype 2%positive
           (OList [SBool true; SBool false]) "flags" None None (Ref 1) None);
    reflexivity.
Defined.


Lemma array_parser_dims_tuple_witness :
  (array_parser sample_str sample_str_dtype sample_str_shape sample_str_dims
     sample_issubdtype (Ref 1) "freq" None None None None
     (Some (DimsTuple [Some 3; None])) sample_heap).1 = Ok (Val SNone)
  <-> Forall2 (fun dim n => forall d, dim = Some d -> Z.of_nat n = d) [Some 3; None]
        (arr_shape (np_array sample_str
                      (OList [SFloat (Fin 440); SFloat NaN; SFloat (Fin (881 # 2))]))).
Proof.
  apply (array_parser_dims_tuple sample_str sample_str_dtype sample_str_shape
           sample_str_dims sample_issubdtype 1%positive
           (OList [SFloat (Fin 440); SFloat NaN; SFloat (Fin (881 # 2))]) "freq"
           [Some 3; None] sample_heap); [reflexivity | simpl; lia].
Defined.

Lemma array_parser_dims_single_witness :
  let run := (array_parser sample_str sample_str_dtype sample_str_shape sample_str_dims
                sample_issubdtype (Ref 1) "freq" None None None None
                (Some (DimsTuple [Some 3])) sample_heap).1 in
  (run = Ok (Val SNone)
   <-> Z.of_nat <$> squeeze (arr_shape (np_array sample_str
          (OList [SFloat (Fin 440); SFloat NaN; SFloat (Fin (881 # 2))]))) = [3]
       \/ (squeeze (arr_shape (np_array sample_str
             (OList [SFloat (Fin 440); SFloat NaN; SFloat (Fin (881 # 2))]))) = []
           /\ 3 = 0))
  /\ (3 = 1 -> exists legal actual, run = Raise (SPYValueError legal "freq" actual)).
Proof.
  apply (array_parser_dims_single sample_str sample_str_dtype sample_str_shape
           sample_str_dims sample_issubdtype 1%positive
           (OList [SFloat (Fin 440); SFloat NaN; SFloat (Fin (881 # 2))]) "freq"
           3 sample_heap); [reflexivity | discriminate].
Defined.

Lemma io_parser_returns_checked_witness :
  exists s, Val (SStr "/data/session1.lfp") = Val (SStr s) /\ true = true
    /\ "session1.lfp" = posix_basename (id (id s))
    /\ split_head (id (id s)) "session1.lfp" = Ok "/data/"
    /\ sample_exists (id (id s)) = true
    /\ sample_isfile (id (id s)) = true
    /\ ((0 < ext_len (ExtList ["lfp"; "mua"]))%nat ->
        replace (posix_splitext "session1.lfp").2 "." "" <> ""
        /\ contains (ext_str sample_repr (ExtList ["lfp"; "mua"]))
             (replace (posix_splitext "session1.lfp").2 "." "") = true).
Proof.
  apply (io_parser_returns_checked id id posix_basename posix_splitext sample_exists
           sample_isdir sample_isfile sample_repr (Val (SStr "/data/session1.lfp"))
           "freq" true (ExtList ["lfp"; "mua"]) true (IoFile "/data/" "session1.lfp")).
  reflexivity.
Defined.

Lemma io_parser_path_and_name_witness :
  String.prefix ("/data/" +:+ "session1.lfp") (id (id "/data/session1.lfp")) = true.
Proof.
  apply (io_parser_path_and_name id id posix_basename posix_splitext sample_exists
           sample_isdir sample_isfile sample_repr "/data/session1.lfp" "freq"
           (ExtList ["lfp"; "mua"]) true "/data/" "session1.lfp"); reflexivity.
Defined.

End ParsersMore.

(* ===================================================================== *)
(** * Further properties of syncopy/tests/misc.py *)
(* ===================================================================== *)

Module TestMiscMore.

Import TestMisc TestMiscProps.

(** ** The rows of the trial definition *)







(** ** [generate_artificial_data] as a whole *)

Section DataProps.

Variable defaultDimord : list string.
Variable filename : string.
Variable integers : Z -> Z -> nat -> list Z.
Variable write_fails : nat -> bool.



(** X25: a dimension order without "time" ends the call with [ValueError],
    one with "time" behind the second place with [IndexError]; in both
    cases before any file is touched. *)
Theorem generate_artificial_data_dimord_errors (nTrials nChannels : nat)
    (equidistant overlapping inmemory : bool) (dimord : option (list string))
    (w : handles) :
  take 2 (default defaultDimord dimord) !! 0%nat <> Some "time" ->
  take 2 (default defaultDimord dimord) !! 1%nat <> Some "time" ->
  generate_artificial_data defaultDimord filename integers write_fails
    nTrials nChannels equidistant overlapping inmemory dimord w
  = (Raise (Builtin (if decide ("time" ∈ default defaultDimord dimord)
                     then IndexError else ValueError)), w).
Proof.
  intros H0 H1. unfold generate_artificial_data.
  set (d := default defaultDimord dimord) in *.
  assert (forall l : list string, 
    match list_index "time" l with
    | Ok k => l !! k = Some "time"
    | Raise e => e = Builtin ValueError /\ "time" ∉ l
    end) as Hidx.
  { induction l as [|y l IH]; simpl.
    - split; [done|]. apply not_elem_of_nil.
    - case_decide as Hy; [by subst|].
      destruct (list_index "time" l) as [k|e]; simpl; [done|].
      destruct IH as [-> IH]. split; [done|].
      rewrite elem_of_cons. intros [?|?]; by subst. }
  specialize (Hidx d).
  destruct (list_index "time" d) as [k|e]; simpl.
  - destruct (Nat.ltb_spec k 2) as [Hk|Hk].
    + exfalso. destruct k as [|[|?]]; [| |lia].
      * apply H0. by rewrite lookup_take_lt by lia.
      * apply H1. by rewrite lookup_take_lt by lia.
    + rewrite decide_True; [done|]. by eapply list_elem_of_lookup_2.
  - destruct Hidx as [-> Hnot]. by rewrite decide_False.
Qed.

(** X26: a call with [nTrials = 0] ends with [IndexError], raised where the
    first row of the empty table is adjusted; with [inmemory = False] the
    file has by then been opened in mode "r+" and stays open. *)
Theorem generate_artificial_data_no_trials (nChannels : nat)
    (equidistant overlapping inmemory : bool) (dimord : option (list string))
    (w : handles) (timeAxis : nat) :
  list_index "time" (default defaultDimord dimord) = Ok timeAxis ->
  (timeAxis < 2)%nat ->
  generate_artificial_data defaultDimord filename integers write_fails
    0 nChannels equidistant overlapping inmemory dimord w
  = (Raise (Builtin IndexError),
     if inmemory then w else <[fresh (dom w) := (filename, "r+")]> w).
Proof.
  intros Htime Hlt. unfold generate_artificial_data. rewrite Htime. simpl.
  destruct (Nat.ltb_spec timeAxis 2) as [_|]; [|lia].
  destruct inmemory.
  - by destruct equidistant.
  - unfold h5_close. rewrite delete_insert_eq.
    rewrite delete_id by apply not_elem_of_dom, is_fresh.
    by destruct equidistant.
Qed.

End DataProps.

Lemma generate_artificial_data_dimord_errors_witness :
  generate_artificial_data sample_defaultDimord sample_filename sample_integers
    (fun _ => false) 2 2 true false false (Some ["channel"; "freq"; "time"]) ∅
  = (Raise (Builtin IndexError), ∅).
Proof.
  apply (generate_artificial_data_dimord_errors sample_defaultDimord sample_filename
           sample_integers (fun _ => false) 2 2 true false false
           (Some ["channel"; "freq"; "time"]) ∅); simpl; congruence.
Defined.

Lemma generate_artificial_data_no_trials_witness :
  generate_artificial_data sample_defaultDimord sample_filename sample_integers
    (fun _ => false) 0 2 true false false None ∅
  = (Raise (Builtin IndexError), <[fresh (dom (∅ : handles)) := (sample_filename, "r+")]> ∅).
Proof.
  apply (generate_artificial_data_no_trials sample_defaultDimord sample_filename
           sample_integers (fun _ => false) 2 true false false None ∅ 0);
    [reflexivity | lia].
Defined.


(** ** [figs_equal] *)

Section FigsEqual.

Context {figure image tolerance : Type}.
Variable render : figure -> result image.
Variable array_equal : image -> image -> bool.
Variable allclose : image -> image -> tolerance -> bool.


End FigsEqual.

(** ** [is_win_vm] *)

Lemma prefix_trans (a b c : string) :
  String.prefix a b = true -> String.prefix b c = true -> String.prefix a c = true.
Proof.
  revert b c. induction a as [|x a IH]; intros b c Hab Hbc; [by destruct c|].
  destruct b as [|y b]; [done|]. destruct c as [|z c]; [done|].
  simpl in *.
  destruct (Ascii.ascii_dec x y) as [->|]; [|done].
  destruct (Ascii.ascii_dec y z) as [->|]; [|done].
  by eapply IH.
Qed.

(** A string that holds [sub] holds every prefix of [sub]. *)
Lemma contains_prefix (s sub p : string) :
  String.prefix p sub = true -> contains s sub = true -> contains s p = true.
Proof.
  intros Hp. induction s as [|c s IH]; cbn [contains]; intros H.
  - rewrite orb_false_r in *. by eapply prefix_trans.
  - apply orb_true_iff in H as [H|H]; apply orb_true_iff.
    + left. by eapply prefix_trans.
    + right. by apply IH.
Qed.

(** X28: [is_win_vm] says [True] exactly when the platform is "win32", the
    [wmic] call has written nothing to its error stream, and the second
    word of its output holds, in any letter case, one of "vmware",
    "virtual", "vbox" and "qemu"; it raises, an [IndexError], exactly when
    on "win32" the error stream is empty and the output has fewer than two
    words.  Off "win32" the outcome of the command plays no role. *)
Theorem is_win_vm_outcomes (platform : string) (communicate : string -> string * string)
    (split : string -> list string) :
  let out := (communicate wmic_command).1 in
  let err := (communicate wmic_command).2 in
  (is_win_vm platform communicate split = Ok true
   <-> platform = "win32" /\ err = ""
       /\ exists word, split out !! 1%nat = Some word
            /\ Exists (fun virtual => contains (lower word) virtual = true)
                 ["vmware"; "virtual"; "vbox"; "qemu"])
  /\ (forall e, is_win_vm platform communicate split = Raise e
      <-> e = Builtin IndexError /\ platform = "win32" /\ err = ""
          /\ (length (split out) < 2)%nat).
Proof.
  cbv zeta. unfold is_win_vm.
  destruct (String.eqb_spec platform "win32") as [->|Hp]; simpl.
  2:{ split; [|intros e]; split; try done; by intros (? & ? & ?). }
  destruct (communicate wmic_command) as [out err]. simpl.
  destruct err as [|c err]; simpl.
  2:{ split; [|intros e]; split; try done; by intros (? & ? & ? & ?). }
  destruct (split out !! 1%nat) as [word|] eqn:Hw.
  - split.
    + unfold vmlist, any. simpl. rewrite orb_false_r. split.
      * intros [= H]. split; [done|]. split; [done|]. exists word. split; [done|].
        rewrite !Exists_cons.
        apply orb_true_iff in H as [H|H]; [by left|].
        apply orb_true_iff in H as [H|H]; [by right; left|].
        apply orb_true_iff in H as [H|H].
        { right. left. by eapply contains_prefix; [|exact H]. }
        apply orb_true_iff in H as [H|H]; [by right; right; left|].
        by right; right; right; left.
      * intros (_ & _ & word' & [= <-] & H). f_equal.
        rewrite !Exists_cons, Exists_nil in H.
        destruct H as [->|[->|[->|[->|[]]]]]; by rewrite ?orb_true_r.
    + intros e. split; [done|]. intros (_ & _ & _ & Hlen).
      apply lookup_lt_Some in Hw. lia.
  - split.
    + split; [done|]. by intros (_ & _ & word & ? & _).
    + intros e. split.
      * intros [= <-]. repeat split; try done. apply lookup_ge_None in Hw. lia.
      * by intros (-> & _).
Qed.

(** ** The positive part of the bounds of the trials *)


End TestMiscMore.
